(** * Procure-to-Pay front end: session, HTTP client and navigation core

    A shallow embedding of the browser-side session and navigation code:

    - [Js]: the fragment of JavaScript values and operators the code uses
      (truthiness, [||], [?.], [===], template-literal conversion);
    - [Header] and [Sidebar]: the two role-to-menu resolvers
      ([components/common/Header/Header.js], [.../Sidebar/Sidebar.js]);
    - [ProtectedRoute]: the route guard;
    - [Api]: the axios instance of [services/api.js] with its request and
      response interceptors, over an explicit world (localStorage,
      [window.location.href], the remote server and the trace of calls);
    - [AuthContext]: [normalizeUserData], [initAuth], [login], [logout]
      and [updateUser] of [context/AuthContext.js]. *)

From Stdlib Require Import ZArith List Bool.
From stdpp Require Import base gmap strings list fin_maps pretty.

Local Open Scope string_scope.
Local Open Scope list_scope.
Set Warnings "-register-all".

(* ===================================================================== *)
(** ** JavaScript values *)
(* ===================================================================== *)

Module Js.

(** JSON-shaped values as they come out of [response.data], plus
    [undefined].  [VNum] covers the numbers that are integers (ids,
    counts): the code never computes with a number, it only tests values
    for truthiness and equality.  Fractions, [NaN] and the infinities
    are outside the model, and no statement below speaks about them.
    Objects are finite maps from property names to values. *)
Inductive Val : Type :=
| VUndefined
| VNull
| VBool (b : bool)
| VNum (n : Z)
| VStr (s : string)
| VArr (xs : list Val)
| VObj (fields : gmap string Val).

(** [ToBoolean]: what [if (v)], [!v], [v || w] and [v && w] test. *)
Definition truthy (v : Val) : bool :=
  match v with
  | VUndefined | VNull => false
  | VBool b => b
  | VNum n => negb (n =? 0)%Z
  | VStr s => negb (String.eqb s "")
  | VArr _ | VObj _ => true
  end.

(** [v || w]: the left operand when it is truthy, else the right one. *)
Definition or (v w : Val) : Val := if truthy v then v else w.

Definition nullish (v : Val) : bool :=
  match v with VUndefined | VNull => true | _ => false end.

(** [v.p] for a [v] that is neither [null] nor [undefined].  Only own
    properties of objects are modelled; every name the program reads
    (role, is_superuser, profile, access, ...) is [undefined] on a
    string, a number, a boolean or an array. *)
Definition prop (v : Val) (p : string) : Val :=
  match v with
  | VObj fields => default VUndefined (fields !! p)
  | _ => VUndefined
  end.

(** [v.p], which throws a TypeError ([None]) on [null] and [undefined]. *)
Definition get (v : Val) (p : string) : option Val :=
  if nullish v then None else Some (prop v p).

(** [v?.p]. *)
Definition opt (v : Val) (p : string) : Val :=
  if nullish v then VUndefined else prop v p.

(** [v === w].  Two objects (or arrays) are equal only when they are the
    same reference; values parsed from different places never are, so the
    model answers [false] for them. *)
Definition strict_eq (v w : Val) : bool :=
  match v, w with
  | VUndefined, VUndefined => true
  | VNull, VNull => true
  | VBool a, VBool b => Bool.eqb a b
  | VNum a, VNum b => (a =? b)%Z
  | VStr a, VStr b => String.eqb a b
  | _, _ => false
  end.

(** [arr.includes(v)] (SameValueZero; the model has no NaN, so it is [===]). *)
Definition includes (arr : list Val) (v : Val) : bool :=
  existsb (fun x => strict_eq x v) arr.

(** [ToString], as applied by a template literal and by
    [localStorage.setItem]. *)
Fixpoint to_string (v : Val) : string :=
  match v with
  | VUndefined => "undefined"
  | VNull => "null"
  | VBool true => "true"
  | VBool false => "false"
  | VNum n => pretty n
  | VStr s => s
  | VArr xs =>
      String.concat ","
        (map (fun x => if nullish x then "" else to_string x) xs)
  | VObj _ => "[object Object]"
  end.

(** What [localStorage.getItem] returns is [null] or a string. *)
Definition of_item (o : option string) : Val :=
  match o with Some s => VStr s | None => VNull end.

(** [v && w]: the left operand when it is falsy, else the right one. *)
Definition and (v w : Val) : Val := if truthy v then w else v.

(** [Array.isArray(v)]. *)
Definition isArray (v : Val) : bool :=
  match v with VArr _ => true | _ => false end.

End Js.

Import Js.

(* ===================================================================== *)
(** ** Header: the top navigation bar *)
(* ===================================================================== *)

Module Header.

Record MenuItem := { path : string; label : string; roles : list string }.

Definition baseMenu : list MenuItem :=
  [ {| path := "/dashboard"; label := "Dashboard";
       roles := ["staff"; "approver_level_1"; "approver_level_2";
                 "approver-level-1"; "approver-level-2"; "finance"; "admin"] |} ].

Definition staffMenu : list MenuItem :=
  [ {| path := "/requests/my-requests"; label := "My Requests"; roles := ["staff"] |};
    {| path := "/requests/create"; label := "Create Request"; roles := ["staff"] |} ].

Definition approverMenu : list MenuItem :=
  [ {| path := "/approvals/pending"; label := "Pending Approvals";
       roles := ["approver_level_1"; "approver_level_2";
                 "approver-level-1"; "approver-level-2"] |};
    {| path := "/requests/all"; label := "All Requests";
       roles := ["approver_level_1"; "approver_level_2";
                 "approver-level-1"; "approver-level-2"] |} ].

Definition financeMenu : list MenuItem :=
  [ {| path := "/requests/approved"; label := "Approved Requests"; roles := ["finance"] |};
    {| path := "/requests/all"; label := "All Requests"; roles := ["finance"] |} ].

Definition adminMenu : list MenuItem :=
  [ {| path := "/requests/all"; label := "All Requests"; roles := ["admin"] |};
    {| path := "/admin/users"; label := "Users"; roles := ["admin"] |};
    {| path := "/admin/request-types"; label := "Request Types"; roles := ["admin"] |};
    {| path := "/admin/approval-levels"; label := "Approval Levels"; roles := ["admin"] |} ].

(** The menus put together before duplicates are removed. *)
Definition allMenuItems (role : Val) (isSuperuser : Val) : list MenuItem :=
  if truthy isSuperuser then
    if negb (strict_eq role (VStr "admin")) then
      baseMenu ++ staffMenu ++ approverMenu ++ financeMenu ++ adminMenu
    else
      baseMenu ++ adminMenu
  else
    if strict_eq role (VStr "staff") then baseMenu ++ staffMenu
    else if strict_eq role (VStr "approver_level_1")
            || strict_eq role (VStr "approver_level_2")
            || strict_eq role (VStr "approver-level-1")
            || strict_eq role (VStr "approver-level-2")
    then baseMenu ++ approverMenu
    else if strict_eq role (VStr "finance") then baseMenu ++ financeMenu
    else if strict_eq role (VStr "admin") then baseMenu ++ adminMenu
    else baseMenu.

(** One turn of the loop [for (const item of allMenuItems)], on the pair
    of [uniqueMenuItems] and [seenPaths]. *)
Definition keepFirst (st : list MenuItem * gset string) (item : MenuItem)
  : list MenuItem * gset string :=
  let '(uniqueMenuItems, seenPaths) := st in
  if decide (path item ∈ seenPaths) then st
  else (uniqueMenuItems ++ [item], {[path item]} ∪ seenPaths).

Definition uniqueMenuItems (items : list MenuItem) : list MenuItem :=
  fst (foldl keepFirst ([], ∅) items).

(** The [useMemo] body: a function of [user] and [loading]. *)
Definition menuItems (user : Val) (loading : bool) : list MenuItem :=
  if negb (truthy user) && negb loading then []
  else
    let role := or (opt user "role") (VStr "staff") in
    let isSuperuser := or (opt user "is_superuser") (VBool false) in
    uniqueMenuItems (allMenuItems role isSuperuser).

(** [isActive(path)], with [location.pathname] as an argument. *)
Definition isActive (pathname path : string) : bool :=
  if String.eqb path "/dashboard" then String.eqb pathname "/dashboard"
  else String.prefix path pathname.

End Header.

(* ===================================================================== *)
(** ** Sidebar: the collapsible side panel *)
(* ===================================================================== *)

Module Sidebar.

Record MenuItem :=
  { path : string; label : string; icon : string; roles : list string }.

Definition baseMenu : list MenuItem :=
  [ {| path := "/dashboard"; label := "Dashboard"; icon := "fas fa-home";
       roles := ["staff"; "approver-level-1"; "approver-level-2"; "finance"; "admin"] |} ].

Definition staffMenu : list MenuItem :=
  [ {| path := "/requests/my-requests"; label := "My Requests";
       icon := "fas fa-list"; roles := ["staff"] |};
    {| path := "/requests/create"; label := "Create Request";
       icon := "fas fa-plus-circle"; roles := ["staff"] |} ].

Definition approverMenu : list MenuItem :=
  [ {| path := "/approvals/pending"; label := "Pending Approvals";
       icon := "fas fa-clock"; roles := ["approver-level-1"; "approver-level-2"] |};
    {| path := "/requests/all"; label := "All Requests";
       icon := "fas fa-list-alt"; roles := ["approver-level-1"; "approver-level-2"] |} ].

Definition financeMenu : list MenuItem :=
  [ {| path := "/requests/approved"; label := "Approved Requests";
       icon := "fas fa-check-circle"; roles := ["finance"] |};
    {| path := "/requests/all"; label := "All Requests";
       icon := "fas fa-list-alt"; roles := ["finance"] |} ].

Definition adminMenu : list MenuItem :=
  [ {| path := "/requests/all"; label := "All Requests";
       icon := "fas fa-list-alt"; roles := ["admin"] |};
    {| path := "/admin/users"; label := "Users Management";
       icon := "fas fa-users"; roles := ["admin"] |};
    {| path := "/admin/request-types"; label := "Request Types";
       icon := "fas fa-tags"; roles := ["admin"] |};
    {| path := "/admin/approval-levels"; label := "Approval Levels";
       icon := "fas fa-layer-group"; roles := ["admin"] |} ].

Definition commonMenu : list MenuItem :=
  [ {| path := "/profile"; label := "Profile"; icon := "fas fa-user";
       roles := ["staff"; "approver-level-1"; "approver-level-2"; "finance"; "admin"] |} ].

Definition getMenuItems (user : Val) : list MenuItem :=
  let role := or (opt user "role") (VStr "staff") in
  let isSuperuser := or (opt user "is_superuser") (VBool false) in
  if truthy isSuperuser then
    baseMenu ++ staffMenu ++ approverMenu ++ financeMenu ++ adminMenu ++ commonMenu
  else
    if strict_eq role (VStr "staff") then baseMenu ++ staffMenu ++ commonMenu
    else if strict_eq role (VStr "approver-level-1")
            || strict_eq role (VStr "approver-level-2")
    then baseMenu ++ approverMenu ++ commonMenu
    else if strict_eq role (VStr "finance") then baseMenu ++ financeMenu ++ commonMenu
    else if strict_eq role (VStr "admin") then baseMenu ++ adminMenu ++ commonMenu
    else baseMenu.

(** [isActive(path)], with [location.pathname] as an argument. *)
Definition isActive (pathname path : string) : bool :=
  if String.eqb path "/dashboard" then String.eqb pathname "/dashboard"
  else String.prefix path pathname.

End Sidebar.

(* ===================================================================== *)
(** ** ProtectedRoute: the route guard *)
(* ===================================================================== *)

Module ProtectedRoute.

(** What the component returns: the spinner, a [<Navigate to=... replace>]
    element, or its children. *)
Inductive Rendered (Children : Type) : Type :=
| Spinner
| Navigate (to : string) (replace : bool)
| Render (children : Children).
Arguments Spinner {Children}.
Arguments Navigate {Children} to replace.
Arguments Render {Children} children.

(** [allowedRoles] defaults to [null]; an array, even an empty one, is
    truthy. *)
Definition ProtectedRoute {Children : Type}
    (children : Children) (allowedRoles : option (list Val))
    (isAuthenticated loading : bool) (user : Val) : Rendered Children :=
  if loading then Spinner
  else if negb isAuthenticated then Navigate "/login" true
  else
    match allowedRoles with
    | Some allowed =>
        if truthy user then
          let userRole := prop user "role" in
          if negb (includes allowed userRole) then Navigate "/dashboard" true
          else Render children
        else Render children
    | None => Render children
    end.

End ProtectedRoute.

(* ===================================================================== *)
(** ** Api: the axios instance and its interceptors *)
(* ===================================================================== *)

Module Api.

(** An axios request config.  [_retry] is the flag the response
    interceptor puts on a config it has already retried. *)
Record Request := {
  method : string;
  baseURL : option string;
  url : string;
  data : Val;
  headers : gmap string string;
  _retry : bool }.

Definition set_retry (config : Request) : Request :=
  {| method := method config; baseURL := baseURL config; url := url config;
     data := data config; headers := headers config; _retry := true |}.

Definition set_header (name value : string) (config : Request) : Request :=
  {| method := method config; baseURL := baseURL config; url := url config;
     data := data config; headers := <[name := value]> (headers config);
     _retry := _retry config |}.

(** A response as the interceptors read it.  Its [config] is the very
    object the error carries as [error.config], which is kept there. *)
Record Response := { status : Z; body : Val }.

(** What a promise is rejected with: an axios error with [error.config]
    and, when the server answered, [error.response]; or the TypeError of
    destructuring [null] or [undefined]. *)
Inductive Error : Type :=
| AxiosError (config : Request) (response : option Response)
| TypeError.

Inductive Settled (A : Type) : Type :=
| Resolved (value : A)
| Rejected (reason : Error).
Arguments Resolved {A} value.
Arguments Rejected {A} reason.

Section WithEnvironment.

(** The page environment read by [getApiBaseUrl]. *)
Variable hostname : string.
Variable REACT_APP_API_BASE_URL : Val.
Variable APP_CONFIG : Val.

(** The remote end: given the request it answers with a status and a
    body, or does not answer at all ([None], a network failure). *)
Variable Server : Type.
Variable serve : Server -> Request -> option (Z * Val) * Server.

Definition getApiBaseUrl : Val :=
  let isLocalhost :=
    String.eqb hostname "localhost" || String.eqb hostname "127.0.0.1"
    || String.eqb hostname "" in
  if isLocalhost then
    if truthy REACT_APP_API_BASE_URL then REACT_APP_API_BASE_URL
    else VStr "http://localhost:8000"
  else if truthy (opt APP_CONFIG "API_BASE_URL") then prop APP_CONFIG "API_BASE_URL"
  else if truthy REACT_APP_API_BASE_URL then REACT_APP_API_BASE_URL
  else VStr "http://localhost:8000".

(** Everything the client reads and writes. [trace] lists the requests
    that went out, oldest first. *)
Record World := {
  storage : gmap string string;
  href : string;
  server : Server;
  trace : list Request }.

Definition getItem (key : string) (w : World) : Val :=
  of_item (storage w !! key).

Definition setItem (key value : string) (w : World) : World :=
  {| storage := <[key := value]> (storage w); href := href w;
     server := server w; trace := trace w |}.

Definition removeItem (key : string) (w : World) : World :=
  {| storage := delete key (storage w); href := href w;
     server := server w; trace := trace w |}.

Definition set_href (to : string) (w : World) : World :=
  {| storage := storage w; href := to; server := server w; trace := trace w |}.

(** The four statements of both tear-down paths of the interceptor. *)
Definition teardown (w : World) : World :=
  set_href "/login"
    (removeItem "user" (removeItem "refresh_token" (removeItem "access_token" w))).

(** [axios.create]: the two defaults api.js gives to the instance, the
    base URL and the Content-Type header, merged under the call's
    config.  Header names are compared as written.  What axios adds or
    drops on its own when it transmits (its Accept default, a
    Content-Type on a request without a body) is not part of api.js and
    not modelled: the statements below read the method, url, data, flag
    and Authorization header of a request, which only api.js sets. *)
Definition withDefaults (config : Request) : Request :=
  {| method := method config;
     baseURL := match baseURL config with
                | Some b => Some b
                | None => Some (to_string getApiBaseUrl)
                end;
     url := url config;
     data := data config;
     headers := headers config ∪ {[ "Content-Type" := "application/json" ]};
     _retry := _retry config |}.

(** The request interceptor. *)
Definition onRequest (config : Request) (w : World) : Request :=
  let token := getItem "access_token" w in
  if truthy token then set_header "Authorization" ("Bearer " +:+ to_string token) config
  else config.

(** Sending a request and settling the promise: axios resolves on a 2xx
    status and rejects otherwise. *)
Definition settle (config : Request) (answer : option (Z * Val)) : Settled Response :=
  match answer with
  | Some (st, b) =>
      let response := {| status := st; body := b |} in
      if (200 <=? st)%Z && (st <? 300)%Z then Resolved response
      else Rejected (AxiosError config (Some response))
  | None => Rejected (AxiosError config None)
  end.

Definition dispatch (config : Request) (w : World) : Settled Response * World :=
  let '(answer, srv) := serve (server w) config in
  (settle config answer,
   {| storage := storage w; href := href w; server := srv;
      trace := trace w ++ [config] |}).

(** [axios.post(`${getApiBaseUrl()}/api/token/refresh/`, { refresh })] on
    the global axios, which has no interceptors. *)
Definition refreshRequest (refreshToken : Val) : Request :=
  {| method := "post"; baseURL := None;
     url := to_string getApiBaseUrl +:+ "/api/token/refresh/";
     data := VObj {[ "refresh" := refreshToken ]};
     headers := ∅; _retry := false |}.

(** The response error interceptor; [api] is the instance it calls to
    send the request again. *)
Definition onResponseError
    (api : Request -> World -> option (Settled Response * World))
    (error : Error) (w : World) : option (Settled Response * World) :=
  match error with
  | AxiosError originalRequest (Some response) =>
      if (status response =? 401)%Z && negb (_retry originalRequest) then
        let originalRequest := set_retry originalRequest in
        let error := AxiosError originalRequest (Some response) in
        let refreshToken := getItem "refresh_token" w in
        if negb (truthy refreshToken) then
          Some (Rejected error, teardown w)
        else
          let '(refreshed, w) := dispatch (refreshRequest refreshToken) w in
          match refreshed with
          | Resolved response =>
              match get (body response) "access" with
              | Some access =>
                  let w := setItem "access_token" (to_string access) w in
                  let originalRequest :=
                    set_header "Authorization" ("Bearer " +:+ to_string access)
                      originalRequest in
                  api originalRequest w
              | None => Some (Rejected TypeError, teardown w)
              end
          | Rejected refreshError => Some (Rejected refreshError, teardown w)
          end
      else Some (Rejected error, w)
  | _ => Some (Rejected error, w)
  end.

(** [api(config)]: defaults, request interceptor, the call, and the
    response interceptors.  The interceptor calls [api] again, so the
    function takes fuel; [api_fuel] below shows that two units always
    suffice. *)
Fixpoint api (fuel : nat) (config : Request) (w : World)
  : option (Settled Response * World) :=
  match fuel with
  | O => None
  | S fuel =>
      let config := onRequest (withDefaults config) w in
      let '(settled, w) := dispatch config w in
      match settled with
      | Resolved response => Some (Resolved response, w)
      | Rejected error => onResponseError (api fuel) error w
      end
  end.

(** The request as it leaves the browser. *)
Definition sent (config : Request) (w : World) : Request :=
  onRequest (withDefaults config) w.

End WithEnvironment.

Arguments Build_World {Server}.
Arguments storage {Server}.
Arguments href {Server}.
Arguments server {Server}.
Arguments trace {Server}.
Arguments getItem {Server}.
Arguments setItem {Server}.
Arguments removeItem {Server}.
Arguments set_href {Server}.
Arguments teardown {Server}.
Arguments onRequest {Server}.
Arguments dispatch {Server}.

End Api.

(* ===================================================================== *)
(** ** AuthContext: the session store *)
(* ===================================================================== *)

Module AuthContext.

(** An object literal. *)
Definition obj (props : list (string * Val)) : Val := VObj (list_to_map props).

(** The own properties [{...v}] copies.  Only reached with objects here:
    the spread sits behind a test that [v.role] is defined. *)
Definition spread (v : Val) : gmap string Val :=
  match v with VObj fields => fields | _ => ∅ end.

(** [normalizeUserData]; [None] stands for the TypeError of reading a
    property of [null] or [undefined]. *)
Definition normalizeUserData (userData : Val) : option Val :=
  role ← get userData "role";
  if negb (strict_eq role VUndefined) then
    Some (VObj (<["is_superuser" :=
                   or (or (VBool (strict_eq role (VStr "admin")))
                          (prop userData "is_superuser"))
                      (VBool false)]> (spread userData)))
  else
    let isSuperuser := or (prop userData "is_superuser") (VBool false) in
    if truthy isSuperuser then
      Some (obj [("id", prop userData "id");
                 ("username", prop userData "username");
                 ("email", prop userData "email");
                 ("role", VStr "admin");
                 ("role_display", VStr "Administrator");
                 ("is_superuser", VBool true)])
    else if truthy (prop userData "profile") then
      Some (obj [("id", prop userData "id");
                 ("username", prop userData "username");
                 ("email", prop userData "email");
                 ("role", or (prop (prop userData "profile") "role") VNull);
                 ("role_display",
                  or (prop (prop userData "profile") "role_display") VNull);
                 ("is_superuser", VBool false)])
    else
      Some (obj [("id", prop userData "id");
                 ("username", prop userData "username");
                 ("email", prop userData "email");
                 ("role", VNull);
                 ("role_display", VNull);
                 ("is_superuser", VBool false)]).

(** The three [useState] cells of the provider. *)
Record AuthState := { user : Val; loading : bool; isAuthenticated : bool }.

Definition initialState : AuthState :=
  {| user := VNull; loading := true; isAuthenticated := false |}.

Definition setUser (u : Val) (st : AuthState) : AuthState :=
  {| user := u; loading := loading st; isAuthenticated := isAuthenticated st |}.

Definition setLoading (b : bool) (st : AuthState) : AuthState :=
  {| user := user st; loading := b; isAuthenticated := isAuthenticated st |}.

Definition setIsAuthenticated (b : bool) (st : AuthState) : AuthState :=
  {| user := user st; loading := loading st; isAuthenticated := b |}.

Section WithEnvironment.

Variable hostname : string.
Variable REACT_APP_API_BASE_URL : Val.
Variable APP_CONFIG : Val.
Variable Server : Type.
Variable serve : Server -> Api.Request -> option (Z * Val) * Server.

(** [JSON.stringify], a built-in whose output the code only stores. *)
Variable stringify : Val -> string.

Local Abbreviation World := (Api.World Server).
Local Abbreviation api := (Api.api hostname REACT_APP_API_BASE_URL APP_CONFIG Server serve).

Definition clearSession (w : World) : World :=
  Api.removeItem "user"
    (Api.removeItem "refresh_token"
       (Api.removeItem "access_token" w)).

(** [authService.getCurrentUser]: [api.get('/api/auth/me/')], then
    [response.data]. *)
Definition getCurrentUser (fuel : nat) (w : World)
  : option (Api.Settled Val * World) :=
  '(settled, w) ← api fuel
      {| Api.method := "get"; Api.baseURL := None; Api.url := "/api/auth/me/";
         Api.data := VUndefined; Api.headers := ∅; Api._retry := false |} w;
  Some (match settled with
        | Api.Resolved response => Api.Resolved (Api.body response)
        | Api.Rejected error => Api.Rejected error
        end, w).

(** The effect run once when the provider mounts. *)
Definition initAuth (fuel : nat) (st : AuthState) (w : World)
  : option (AuthState * World) :=
  let storedUser := Api.getItem "user" w in
  let accessToken := Api.getItem "access_token" w in
  '(st, w) ←
    (if truthy storedUser && truthy accessToken then
       '(settled, w) ← getCurrentUser fuel w;
       let caught := (setIsAuthenticated false (setUser VNull st), clearSession w) in
       match settled with
       | Api.Resolved userData =>
           match normalizeUserData userData with
           | Some normalizedUser =>
               Some (setIsAuthenticated true (setUser normalizedUser st),
                     Api.setItem "user" (stringify normalizedUser) w)
           | None => Some caught
           end
       | Api.Rejected _ => Some caught
       end
     else Some (setIsAuthenticated false (setUser VNull st), w));
  Some (setLoading false st, w).

(** [login]: the promise it returns settles with the user or with the
    error, unchanged. *)
Definition login (fuel : nat) (username password : Val) (st : AuthState) (w : World)
  : option (Api.Settled Val * AuthState * World) :=
  '(settled, w) ← api fuel
      {| Api.method := "post"; Api.baseURL := None; Api.url := "/api/token/";
         Api.data := obj [("username", username); ("password", password)];
         Api.headers := ∅; Api._retry := false |} w;
  match settled with
  | Api.Resolved response =>
      let response := Api.body response in
      match get response "access" with
      | Some access =>
          let refresh := prop response "refresh" in
          let userData := prop response "user" in
          let w := Api.setItem "access_token" (to_string access) w in
          let w := Api.setItem "refresh_token" (to_string refresh) w in
          let w := Api.setItem "user" (stringify userData) w in
          Some (Api.Resolved userData,
                setIsAuthenticated true (setUser userData st), w)
      | None => Some (Api.Rejected Api.TypeError, st, w)
      end
  | Api.Rejected error => Some (Api.Rejected error, st, w)
  end.

Definition logout (st : AuthState) (w : World) : AuthState * World :=
  (setIsAuthenticated false (setUser VNull st), clearSession w).

Definition updateUser (userData : Val) (st : AuthState) (w : World)
  : AuthState * World :=
  (setUser userData st, Api.setItem "user" (stringify userData) w).

End WithEnvironment.

End AuthContext.

(* ===================================================================== *)
(** ** App: the route table *)
(* ===================================================================== *)

Module App.

(** The [element] of a [<Route>]: the login page, a page inside
    [<ProtectedRoute>] and [<Layout>], or a [<Navigate>]. *)
Inductive Element : Type :=
| Login
| Guarded (allowedRoles : option (list Val)) (page : string)
| Redirect (to : string) (replace : bool).

(** The [<Routes>] of [App], in order.  No [<ProtectedRoute>] is given
    [allowedRoles], so each has the default [null]. *)
Definition routes : list (string * Element) :=
  [ ("/login", Login);
    ("/dashboard", Guarded None "Dashboard");
    ("/requests/my-requests", Guarded None "MyRequests");
    ("/requests/create", Guarded None "CreateRequest");
    ("/requests/:id", Guarded None "RequestDetail");
    ("/requests/:id/edit", Guarded None "EditRequest");
    ("/approvals/pending", Guarded None "PendingApprovals");
    ("/requests/all", Guarded None "AllRequests");
    ("/requests/approved", Guarded None "ApprovedRequests");
    ("/profile", Guarded None "Profile");
    ("/admin/users", Guarded None "UsersManagement");
    ("/admin/request-types", Guarded None "RequestTypes");
    ("/admin/approval-levels", Guarded None "ApprovalLevels");
    ("/", Redirect "/dashboard" true);
    ("*", Redirect "/dashboard" true) ].

(** What an element renders to, given the auth context. *)
Definition render (element : Element) (isAuthenticated loading : bool) (user : Val)
  : ProtectedRoute.Rendered string :=
  match element with
  | Login => ProtectedRoute.Render "Login"
  | Guarded allowedRoles page =>
      ProtectedRoute.ProtectedRoute page allowedRoles isAuthenticated loading user
  | Redirect to replace => ProtectedRoute.Navigate to replace
  end.

End App.

(* ===================================================================== *)
(** ** RequestDetail: what the user may do with a request *)
(* ===================================================================== *)

Module RequestDetail.

(** [user?.id === request?.created_by || user?.is_superuser]. *)
Definition ownerOrSuperuser (request user : Val) : Val :=
  or (VBool (strict_eq (opt user "id") (opt request "created_by")))
     (opt user "is_superuser").

Definition canEdit (request user : Val) : Val :=
  and (opt request "can_be_edited") (ownerOrSuperuser request user).

Definition canSubmitReceipt (request user : Val) : Val :=
  and (and (VBool (strict_eq (opt request "status") (VStr "approved")))
           (ownerOrSuperuser request user))
      (or (VBool (strict_eq (opt user "role") (VStr "staff")))
          (opt user "is_superuser")).

Definition canApprove (request user : Val) : Val :=
  and (VBool (strict_eq (opt request "status") (VStr "pending")))
      (or (or (or (or (VBool (strict_eq (opt user "role") (VStr "approver_level_1")))
                      (VBool (strict_eq (opt user "role") (VStr "approver_level_2"))))
                  (VBool (strict_eq (opt user "role") (VStr "approver-level-1"))))
              (VBool (strict_eq (opt user "role") (VStr "approver-level-2"))))
          (opt user "is_superuser")).

Definition getBackPath (user : Val) : string :=
  let role := or (opt user "role") (VStr "staff") in
  if strict_eq role (VStr "finance") then "/requests/approved"
  else if strict_eq role (VStr "approver_level_1")
          || strict_eq role (VStr "approver_level_2")
          || strict_eq role (VStr "approver-level-1")
          || strict_eq role (VStr "approver-level-2")
  then "/approvals/pending"
  else if truthy (or (VBool (strict_eq role (VStr "admin"))) (opt user "is_superuser"))
  then "/requests/all"
  else "/requests/my-requests".

End RequestDetail.

(* ===================================================================== *)
(** ** Requests: the request-type service *)
(* ===================================================================== *)

Module Requests.

(** [Array.isArray(data) ? data : (data.results || [])]; [None] is the
    TypeError of reading [results] on [null] or [undefined]. *)
Definition listOf (data : Val) : option Val :=
  if isArray data then Some data
  else results ← get data "results"; Some (or results (VArr [])).

Section WithEnvironment.

Variable hostname : string.
Variable REACT_APP_API_BASE_URL : Val.
Variable APP_CONFIG : Val.
Variable Server : Type.
Variable serve : Server -> Api.Request -> option (Z * Val) * Server.

(** [getRequestTypes]: [api.get('/api/request-types/')], then the list
    in the body. *)
Definition getRequestTypes (fuel : nat) (w : Api.World Server)
  : option (Api.Settled Val * Api.World Server) :=
  '(settled, w) ← Api.api hostname REACT_APP_API_BASE_URL APP_CONFIG Server serve fuel
      {| Api.method := "get"; Api.baseURL := None; Api.url := "/api/request-types/";
         Api.data := VUndefined; Api.headers := ∅; Api._retry := false |} w;
  Some (match settled with
        | Api.Resolved response =>
            match listOf (Api.body response) with
            | Some list => Api.Resolved list
            | None => Api.Rejected Api.TypeError
            end
        | Api.Rejected error => Api.Rejected error
        end, w).

End WithEnvironment.

End Requests.

(* ===================================================================== *)
(** ** Vocabulary of the statements *)
(* ===================================================================== *)

(** *** Navigation *)

(** The loop state after any number of turns: [seenPaths] holds exactly
    the paths of [uniqueMenuItems]. *)
Definition loop_inv (st : list Header.MenuItem * gset string) : Prop :=
  forall p, p ∈ st.2 <-> p ∈ map Header.path st.1.

(** The paths a superuser whose role is not admin gets in the header, in
    order: base, staff, approver, finance and admin entries, each path
    once. *)
Definition everyPath : list string :=
  [ "/dashboard"; "/requests/my-requests"; "/requests/create";
    "/approvals/pending"; "/requests/all"; "/requests/approved";
    "/admin/users"; "/admin/request-types"; "/admin/approval-levels" ].

(** An identity with a role and a true [is_superuser]. *)
Definition superuser (role : string) : Val :=
  VObj {[ "role" := VStr role; "is_superuser" := VBool true ]}.

(** The role strings the two resolvers test for. *)
Definition headerRoles : list string :=
  [ "staff"; "approver_level_1"; "approver_level_2"; "approver-level-1";
    "approver-level-2"; "finance"; "admin" ].

Definition sidebarRoles : list string :=
  [ "staff"; "approver-level-1"; "approver-level-2"; "finance"; "admin" ].

(** *** The HTTP client *)

(** The world after more requests went out: a new server state and a
    longer trace, the same storage and location. *)
Definition after {Server : Type} (w : Api.World Server) (srv : Server)
    (requests : list Api.Request) : Api.World Server :=
  {| Api.storage := Api.storage w; Api.href := Api.href w;
     Api.server := srv; Api.trace := Api.trace w ++ requests |}.

(** The request the interceptor sends again: the one that failed, with
    the flag and the new bearer header. *)
Definition retriedRequest (first : Api.Request) (access : Val) : Api.Request :=
  Api.set_header "Authorization" ("Bearer " +:+ to_string access)
    (Api.set_retry first).

(** The three keys of a stored session. *)
Definition sessionKeys : list string := ["access_token"; "refresh_token"; "user"].

(** *** A scripted server, to run the client on examples *)

(** A server that gives the answers of a list, one per request, and
    stops answering when the list is used up. *)
Definition Script : Type := list (option (Z * Val)).

Definition scripted (script : Script) (request : Api.Request)
  : option (Z * Val) * Script :=
  match script with
  | [] => (None, [])
  | answer :: rest => (answer, rest)
  end.

Definition run (fuel : nat) (config : Api.Request) (w : Api.World Script)
  : option (Api.Settled Api.Response * Api.World Script) :=
  Api.api "localhost" VUndefined VUndefined Script scripted fuel config w.

Definition listRequests : Api.Request :=
  {| Api.method := "get"; Api.baseURL := None; Api.url := "/api/requests/";
     Api.data := VUndefined; Api.headers := ∅; Api._retry := false |}.

Definition session (script : Script) : Api.World Script :=
  {| Api.storage := {[ "access_token" := "old"; "refresh_token" := "r1";
                       "user" := "ann"; "theme" := "dark" ]};
     Api.href := "/dashboard"; Api.server := script; Api.trace := [] |}.

(** The configs of [api.get('/api/auth/me/')] and of
    [api.post('/api/token/', { username, password })]. *)
Definition currentUserRequest : Api.Request :=
  {| Api.method := "get"; Api.baseURL := None; Api.url := "/api/auth/me/";
     Api.data := VUndefined; Api.headers := ∅; Api._retry := false |}.

Definition tokenRequest (username password : Val) : Api.Request :=
  {| Api.method := "post"; Api.baseURL := None; Api.url := "/api/token/";
     Api.data := AuthContext.obj [("username", username); ("password", password)];
     Api.headers := ∅; Api._retry := false |}.

(** The provider's state after a restore: with a user, or signed out. *)
Definition restored (u : Val) : AuthContext.AuthState :=
  {| AuthContext.user := u; AuthContext.loading := false;
     AuthContext.isAuthenticated := true |}.

Definition signedOut : AuthContext.AuthState :=
  {| AuthContext.user := VNull; AuthContext.loading := false;
     AuthContext.isAuthenticated := false |}.

(** The config of [api.get('/api/request-types/')]. *)
Definition requestTypesRequest : Api.Request :=
  {| Api.method := "get"; Api.baseURL := None; Api.url := "/api/request-types/";
     Api.data := VUndefined; Api.headers := ∅; Api._retry := false |}.

(** A world with no stored session. *)
Definition visitor (script : Script) : Api.World Script :=
  {| Api.storage := {[ "theme" := "dark" ]};
     Api.href := "/login"; Api.server := script; Api.trace := [] |}.

(** *** A server that reads the requests *)

(** A small back end, without state.  It answers the refresh endpoint
    with a new access token for a POST that carries the refresh token
    "r1", and with an object that names the token otherwise for "r2";
    it answers the token endpoint for the user ann with password
    "secret"; it lists the requests for a GET that carries the new
    bearer token, and answers 401 to any other one. *)
Definition backend (state : unit) (request : Api.Request)
  : option (Z * Val) * unit :=
  let url := Api.url request in
  let method := Api.method request in
  if String.eqb url "http://localhost:8000/api/token/refresh/" then
    match method, Api.data request with
    | "post", VObj fields =>
        match fields !! "refresh" with
        | Some (VStr "r1") => (Some (200%Z, VObj {[ "access" := VStr "new" ]}), tt)
        | Some (VStr "r2") => (Some (200%Z, VObj {[ "token" := VStr "new" ]}), tt)
        | _ => (Some (401%Z, VStr "expired"), tt)
        end
    | _, _ => (Some (405%Z, VNull), tt)
    end
  else if String.eqb url "/api/token/" then
    match method, Api.data request with
    | "post", VObj fields =>
        match fields !! "username", fields !! "password" with
        | Some (VStr "ann"), Some (VStr "secret") =>
            (Some (200%Z,
                   VObj {[ "access" := VStr "a1"; "refresh" := VStr "r1";
                           "user" := VObj {[ "id" := VNum 1;
                                             "username" := VStr "ann";
                                             "role" := VStr "staff" ]} ]}), tt)
        | _, _ => (Some (401%Z, VObj {[ "detail" := VStr "No active account" ]}), tt)
        end
    | _, _ => (Some (405%Z, VNull), tt)
    end
  else if String.eqb url "/api/requests/" then
    match method, Api.headers request !! "Authorization" with
    | "get", Some "Bearer new" => (Some (200%Z, VStr "rows"), tt)
    | _, _ => (Some (401%Z, VNull), tt)
    end
  else (Some (404%Z, VNull), tt).

Definition call (fuel : nat) (config : Api.Request) (w : Api.World unit)
  : option (Api.Settled Api.Response * Api.World unit) :=
  Api.api "localhost" VUndefined VUndefined unit backend fuel config w.

(** A stored session whose access token the back end no longer takes;
    the same without a refresh token; the same with a refresh token the
    back end answers under another property name; and no session at
    all. *)
Definition staleSession : Api.World unit :=
  {| Api.storage := {[ "access_token" := "old"; "refresh_token" := "r1";
                       "user" := "ann"; "theme" := "dark" ]};
     Api.href := "/dashboard"; Api.server := tt; Api.trace := [] |}.

Definition halfSession : Api.World unit :=
  {| Api.storage := {[ "access_token" := "old"; "user" := "ann";
                       "theme" := "dark" ]};
     Api.href := "/dashboard"; Api.server := tt; Api.trace := [] |}.

Definition oddSession : Api.World unit :=
  {| Api.storage := {[ "access_token" := "old"; "refresh_token" := "r2";
                       "user" := "ann"; "theme" := "dark" ]};
     Api.href := "/dashboard"; Api.server := tt; Api.trace := [] |}.

Definition noSession : Api.World unit :=
  {| Api.storage := {[ "theme" := "dark" ]};
     Api.href := "/login"; Api.server := tt; Api.trace := [] |}.

(* ===================================================================== *)
(** * Properties *)
(* ===================================================================== *)

(** ** JavaScript operators *)

Lemma strict_eq_str (v : Val) (s : string) :
  strict_eq v (VStr s) = true <-> v = VStr s.
Proof.
  destruct v; simpl; split; try discriminate.
  - intros H. apply String.eqb_eq in H. by subst.
  - intros [= ->]. apply String.eqb_refl.
Qed.

Lemma strict_eq_str_false (v : Val) (s : string) :
  strict_eq v (VStr s) = false <-> v <> VStr s.
Proof.
  rewrite <- strict_eq_str. destruct (strict_eq v (VStr s)); naive_solver.
Qed.

Lemma or_falsy (v w : Val) : truthy v = false -> or v w = w.
Proof. unfold or. by intros ->. Qed.

Lemma or_truthy (v w : Val) : truthy v = true -> or v w = v.
Proof. unfold or. by intros ->. Qed.

Lemma or_staff_not_admin (v : Val) :
  v <> VStr "admin" -> strict_eq (or v (VStr "staff")) (VStr "admin") = false.
Proof.
  intros Hv. unfold or. destruct (truthy v); [|done].
  by apply strict_eq_str_false.
Qed.

Lemma or_false_truthy (v : Val) : truthy (or v (VBool false)) = truthy v.
Proof. unfold or. by destruct (truthy v) eqn:E. Qed.

(** ** Removing duplicate paths (Header) *)

Section UniqueMenuItems.

Import Header.

Abbreviation paths := (map path).

Lemma keepFirst_inv st item : loop_inv st -> loop_inv (keepFirst st item).
Proof.
  destruct st as [acc seen]. unfold loop_inv, keepFirst. simpl. intros Hinv.
  case_decide; simpl; [done|].
  intros p. rewrite map_app, elem_of_app, elem_of_union, elem_of_singleton, Hinv.
  simpl. rewrite list_elem_of_singleton. tauto.
Qed.

Lemma foldl_keepFirst_inv items st :
  loop_inv st -> loop_inv (foldl keepFirst st items).
Proof.
  revert st. induction items as [|item items IH]; intros st Hinv; simpl; [done|].
  by apply IH, keepFirst_inv.
Qed.

Lemma foldl_snoc {A B} (f : A -> B -> A) (a : A) (l : list B) (x : B) :
  foldl f a (l ++ [x]) = f (foldl f a l) x.
Proof. by rewrite foldl_app. Qed.

Lemma foldl_keepFirst_paths items st :
  loop_inv st ->
  forall p, p ∈ paths (foldl keepFirst st items).1 <-> p ∈ paths st.1 \/ p ∈ paths items.
Proof.
  revert st. induction items as [|item items IH]; intros st Hinv p; simpl.
  - rewrite elem_of_nil. tauto.
  - rewrite (IH _ (keepFirst_inv _ item Hinv)), elem_of_cons.
    destruct st as [acc seen]. unfold keepFirst. simpl in *.
    case_decide as Hseen; simpl.
    + apply Hinv in Hseen. simpl in Hseen. split; [tauto|].
      intros [?|[->|?]]; tauto.
    + rewrite map_app, elem_of_app. simpl. rewrite list_elem_of_singleton. tauto.
Qed.

(** Taking one more entry: it is dropped when its path has been seen,
    and put last otherwise.  So each path keeps its first entry, in the
    order the entries came. *)
Lemma uniqueMenuItems_snoc items item :
  uniqueMenuItems (items ++ [item]) =
  if decide (path item ∈ paths items) then uniqueMenuItems items
  else uniqueMenuItems items ++ [item].
Proof.
  unfold uniqueMenuItems. rewrite foldl_snoc.
  assert (Hinv : loop_inv (foldl keepFirst ([], ∅) items)).
  { apply foldl_keepFirst_inv. intros p. simpl. set_solver. }
  pose proof (foldl_keepFirst_paths items ([], ∅)) as Hp.
  destruct (foldl keepFirst ([], ∅) items) as [acc seen] eqn:E.
  unfold keepFirst. simpl in *.
  assert (Hseen : forall p, p ∈ seen <-> p ∈ paths items).
  { intros p. rewrite (Hinv p). simpl. rewrite Hp.
    - simpl. rewrite elem_of_nil. tauto.
    - intros q. simpl. rewrite elem_of_nil. split; [|tauto]. apply not_elem_of_empty. }
  destruct (decide (path item ∈ seen)) as [Hin|Hout],
           (decide (path item ∈ paths items)) as [Hin'|Hout']; simpl; try done.
  - by apply Hseen in Hin.
  - by apply Hseen in Hin'.
Qed.

Lemma uniqueMenuItems_nil : uniqueMenuItems [] = [].
Proof. reflexivity. Qed.

Lemma uniqueMenuItems_paths items p :
  p ∈ paths (uniqueMenuItems items) <-> p ∈ paths items.
Proof.
  unfold uniqueMenuItems.
  rewrite foldl_keepFirst_paths; [|intros q; simpl; set_solver].
  simpl. rewrite elem_of_nil. tauto.
Qed.

Lemma uniqueMenuItems_NoDup items : NoDup (paths (uniqueMenuItems items)).
Proof.
  induction items as [|item items IH] using rev_ind.
  - rewrite uniqueMenuItems_nil. constructor.
  - rewrite uniqueMenuItems_snoc. case_decide as Hseen; [done|].
    rewrite map_app. simpl. apply NoDup_app. split; [done|]. split.
    + intros p Hp ->%list_elem_of_singleton. apply Hseen.
      by apply uniqueMenuItems_paths.
    + apply NoDup_singleton.
Qed.

Lemma uniqueMenuItems_sublist items : uniqueMenuItems items `sublist_of` items.
Proof.
  induction items as [|item items IH] using rev_ind; [done|].
  rewrite uniqueMenuItems_snoc. case_decide.
  - by apply sublist_inserts_r.
  - by apply sublist_app.
Qed.

(** A list without repeated paths goes through unchanged. *)
Lemma uniqueMenuItems_id items : NoDup (paths items) -> uniqueMenuItems items = items.
Proof.
  induction items as [|item items IH] using rev_ind; [done|].
  rewrite map_app, NoDup_app. simpl. intros (Hnd & Hfresh & _).
  rewrite uniqueMenuItems_snoc, (IH Hnd). case_decide as Hseen; [|done].
  exfalso. apply (Hfresh _ Hseen). by constructor.
Qed.

(** Whatever the identity, the header menu has no two entries with the
    same path. *)
Lemma Header_menuItems_NoDup user loading : NoDup (paths (menuItems user loading)).
Proof.
  unfold menuItems. destruct (negb (truthy user) && negb loading).
  - constructor.
  - apply uniqueMenuItems_NoDup.
Qed.

End UniqueMenuItems.

(** ** Navigation for superusers *)

Lemma Header_superuser_other user loading :
  truthy user = true ->
  truthy (opt user "is_superuser") = true ->
  opt user "role" <> VStr "admin" ->
  Header.menuItems user loading =
  Header.uniqueMenuItems
    (Header.baseMenu ++ Header.staffMenu ++ Header.approverMenu
       ++ Header.financeMenu ++ Header.adminMenu).
Proof.
  intros Hu Hsu Hrole. unfold Header.menuItems, Header.allMenuItems.
  rewrite Hu. simpl. rewrite or_false_truthy, Hsu.
  by rewrite (or_staff_not_admin _ Hrole).
Qed.

Lemma Header_superuser_admin user loading :
  truthy user = true ->
  truthy (opt user "is_superuser") = true ->
  opt user "role" = VStr "admin" ->
  Header.menuItems user loading = Header.baseMenu ++ Header.adminMenu.
Proof.
  intros Hu Hsu Hrole. unfold Header.menuItems, Header.allMenuItems.
  rewrite Hu. simpl. rewrite or_false_truthy, Hsu, Hrole. reflexivity.
Qed.

Lemma Sidebar_superuser user :
  truthy (opt user "is_superuser") = true ->
  Sidebar.getMenuItems user =
  Sidebar.baseMenu ++ Sidebar.staffMenu ++ Sidebar.approverMenu
    ++ Sidebar.financeMenu ++ Sidebar.adminMenu ++ Sidebar.commonMenu.
Proof.
  intros Hsu. unfold Sidebar.getMenuItems. by rewrite or_false_truthy, Hsu.
Qed.

(** C3, as the code has it.  For an identity with a true [is_superuser]:
    the header gives a role other than admin the base entry and the
    staff, approver, finance and admin entries, one entry per path, and
    gives the admin role the base entry and the admin entries only, with
    no path twice; the sidebar makes no difference between roles: its
    menu has the paths of all five sets and of the Profile entry. *)
Theorem C3_superuser_navigation (fields : gmap string Val) (loading : bool) :
  fields !! "is_superuser" = Some (VBool true) ->
  let user := VObj fields in
  (prop user "role" <> VStr "admin" ->
     Header.menuItems user loading =
       Header.uniqueMenuItems
         (Header.baseMenu ++ Header.staffMenu ++ Header.approverMenu
            ++ Header.financeMenu ++ Header.adminMenu)
     /\ map Header.path (Header.menuItems user loading) = everyPath)
  /\ (prop user "role" = VStr "admin" ->
     Header.menuItems user loading = Header.baseMenu ++ Header.adminMenu
     /\ NoDup (map Header.path (Header.menuItems user loading)))
  /\ (forall p, p ∈ map Sidebar.path (Sidebar.getMenuItems user)
                <-> p ∈ everyPath \/ p = "/profile").
Proof.
  intros Hsu user.
  assert (Hsu' : truthy (opt user "is_superuser") = true).
  { unfold user, opt. simpl. by rewrite Hsu. }
  split; [|split].
  - intros Hrole. rewrite (Header_superuser_other user loading); [|done..].
    split; reflexivity.
  - intros Hrole. split.
    + by apply Header_superuser_admin.
    + apply Header_menuItems_NoDup.
  - intros p. rewrite (Sidebar_superuser user Hsu'). unfold everyPath. simpl.
    rewrite !elem_of_cons, !elem_of_nil. tauto.
Qed.

Lemma C3_superuser_navigation_witness :
  map Header.path (Header.menuItems (superuser "finance") false) = everyPath
  /\ Header.menuItems (superuser "admin") false = Header.baseMenu ++ Header.adminMenu.
Proof.
  split.
  - apply (C3_superuser_navigation
             {[ "role" := VStr "finance"; "is_superuser" := VBool true ]} false);
      [reflexivity | vm_compute; discriminate].
  - apply (C3_superuser_navigation
             {[ "role" := VStr "admin"; "is_superuser" := VBool true ]} false);
      reflexivity.
Defined.

(** C3 as stated fails in the sidebar: a superuser whose role is admin
    gets the staff entry "Create Request" there, which is in neither the
    base nor the admin set, and gets the path "/requests/all" three
    times. *)
Lemma C3_sidebar_counterexample :
  let menu := Sidebar.getMenuItems (superuser "admin") in
  menu <> Sidebar.baseMenu ++ Sidebar.adminMenu
  /\ menu <> Sidebar.baseMenu ++ Sidebar.adminMenu ++ Sidebar.commonMenu
  /\ "/requests/create" ∈ map Sidebar.path menu
  /\ ("/requests/create" ∉ map Sidebar.path
        (Sidebar.baseMenu ++ Sidebar.adminMenu ++ Sidebar.commonMenu))
  /\ ~ NoDup (map Sidebar.path menu).
Proof.
  repeat split.
  - vm_compute. discriminate.
  - vm_compute. discriminate.
  - apply list_elem_of_In. vm_compute. tauto.
  - rewrite list_elem_of_In. vm_compute. intuition discriminate.
  - rewrite NoDup_ListNoDup. intros H. vm_compute in H.
    repeat match goal with
           | H : List.NoDup (_ :: _) |- _ =>
               apply List.NoDup_cons_iff in H; destruct H
           end.
    match goal with
    | H : ~ List.In "/requests/all" _ |- _ => apply H; simpl; tauto
    end.
Qed.

(** C4 at the sidebar: for a superuser the menu is the plain
    concatenation of the six lists, so the path "/requests/all" comes
    three times (from the approver, finance and admin lists) and the
    paths are not distinct.  The header removes such repetitions
    ([Header_menuItems_NoDup]); [getMenuItems] has no such step. *)
Theorem C4_sidebar_repeats_path :
  map Sidebar.path (Sidebar.getMenuItems (superuser "staff")) =
    [ "/dashboard"; "/requests/my-requests"; "/requests/create";
      "/approvals/pending"; "/requests/all";
      "/requests/approved"; "/requests/all";
      "/requests/all"; "/admin/users"; "/admin/request-types";
      "/admin/approval-levels"; "/profile" ]
  /\ ~ NoDup (map Sidebar.path (Sidebar.getMenuItems (superuser "staff")))
  /\ NoDup (map Header.path (Header.menuItems (superuser "staff") false)).
Proof.
  split; [reflexivity|]. split; [|apply Header_menuItems_NoDup].
  rewrite NoDup_ListNoDup. intros H. vm_compute in H.
  repeat match goal with
         | H : List.NoDup (_ :: _) |- _ =>
             apply List.NoDup_cons_iff in H; destruct H
         end.
  match goal with
  | H : ~ List.In "/requests/all" _ |- _ => apply H; simpl; tauto
  end.
Qed.

(** ** Navigation for a missing or unknown role *)

Ltac no_such_role H :=
  unfold headerRoles, sidebarRoles in H;
  rewrite ?not_elem_of_cons in H; destruct_and?;
  repeat match goal with
         | Hne : ?s <> ?r |- context [String.eqb ?s ?r] =>
             rewrite (proj2 (String.eqb_neq s r) Hne)
         end.

Lemma Header_unknown_role user loading s :
  truthy user = true ->
  truthy (opt user "is_superuser") = false ->
  opt user "role" = VStr s -> s <> "" -> s ∉ headerRoles ->
  Header.menuItems user loading = Header.baseMenu.
Proof.
  intros Hu Hsu Hrole Hs Hunknown.
  unfold Header.menuItems, Header.allMenuItems.
  rewrite Hu, Hrole. simpl. rewrite or_false_truthy, Hsu.
  rewrite or_truthy; [|simpl; by rewrite (proj2 (String.eqb_neq s "") Hs)].
  simpl. no_such_role Hunknown. reflexivity.
Qed.

Lemma Sidebar_unknown_role user s :
  truthy (opt user "is_superuser") = false ->
  opt user "role" = VStr s -> s <> "" -> s ∉ sidebarRoles ->
  Sidebar.getMenuItems user = Sidebar.baseMenu.
Proof.
  intros Hsu Hrole Hs Hunknown. unfold Sidebar.getMenuItems.
  rewrite Hrole, or_false_truthy, Hsu.
  rewrite or_truthy; [|simpl; by rewrite (proj2 (String.eqb_neq s "") Hs)].
  simpl. no_such_role Hunknown. reflexivity.
Qed.

Lemma Header_missing_role user loading :
  truthy user = true ->
  truthy (opt user "is_superuser") = false ->
  truthy (opt user "role") = false ->
  Header.menuItems user loading = Header.baseMenu ++ Header.staffMenu.
Proof.
  intros Hu Hsu Hrole. unfold Header.menuItems, Header.allMenuItems.
  rewrite Hu. simpl. by rewrite or_false_truthy, Hsu, (or_falsy _ _ Hrole).
Qed.

Lemma Sidebar_missing_role user :
  truthy (opt user "is_superuser") = false ->
  truthy (opt user "role") = false ->
  Sidebar.getMenuItems user =
  Sidebar.baseMenu ++ Sidebar.staffMenu ++ Sidebar.commonMenu.
Proof.
  intros Hsu Hrole. unfold Sidebar.getMenuItems.
  by rewrite or_false_truthy, Hsu, (or_falsy _ _ Hrole).
Qed.

Lemma Header_staff user loading :
  truthy user = true ->
  truthy (opt user "is_superuser") = false ->
  opt user "role" = VStr "staff" ->
  Header.menuItems user loading = Header.baseMenu ++ Header.staffMenu.
Proof.
  intros Hu Hsu Hrole. unfold Header.menuItems, Header.allMenuItems.
  rewrite Hu. simpl. by rewrite or_false_truthy, Hsu, Hrole.
Qed.

Lemma Sidebar_staff user :
  truthy (opt user "is_superuser") = false ->
  opt user "role" = VStr "staff" ->
  Sidebar.getMenuItems user =
  Sidebar.baseMenu ++ Sidebar.staffMenu ++ Sidebar.commonMenu.
Proof.
  intros Hsu Hrole. unfold Sidebar.getMenuItems.
  by rewrite or_false_truthy, Hsu, Hrole.
Qed.

(** C7, as the code has it.  For an identity that is not a superuser:
    when its role is missing or empty ([undefined], [null], the empty
    string: [role || 'staff'] takes the default), both resolvers give the
    menu they give for role staff; when its role is a non-empty string
    that is none of the strings a resolver tests for, that resolver
    gives the base entry alone. *)
Theorem C7_role_fallback (fields : gmap string Val) (loading : bool) :
  let user := VObj fields in
  let asStaff := VObj (<["role" := VStr "staff"]> fields) in
  truthy (prop user "is_superuser") = false ->
  (truthy (prop user "role") = false ->
     Header.menuItems user loading = Header.menuItems asStaff loading
     /\ Sidebar.getMenuItems user = Sidebar.getMenuItems asStaff)
  /\ (forall s, prop user "role" = VStr s -> s <> "" ->
        (s ∉ headerRoles -> Header.menuItems user loading = Header.baseMenu)
        /\ (s ∉ sidebarRoles -> Sidebar.getMenuItems user = Sidebar.baseMenu)).
Proof.
  intros user asStaff Hsu. split.
  - intros Hrole.
    assert (Hsu' : truthy (opt asStaff "is_superuser") = false).
    { unfold asStaff, opt. simpl. by rewrite lookup_insert_ne. }
    assert (Hstaff : opt asStaff "role" = VStr "staff").
    { unfold asStaff, opt. simpl. by rewrite lookup_insert_eq. }
    rewrite (Header_missing_role user loading), (Header_staff asStaff loading),
      (Sidebar_missing_role user), (Sidebar_staff asStaff); done.
  - intros s Hrole Hs. split; intros Hunknown.
    + by apply (Header_unknown_role user loading s).
    + by apply (Sidebar_unknown_role user s).
Qed.

Lemma C7_role_fallback_witness :
  Header.menuItems (VObj {[ "username" := VStr "ann" ]}) false =
    Header.menuItems (VObj (<["role" := VStr "staff"]> {[ "username" := VStr "ann" ]})) false
  /\ Sidebar.getMenuItems (VObj {[ "role" := VStr "manager" ]}) = Sidebar.baseMenu.
Proof.
  split.
  - apply (C7_role_fallback {[ "username" := VStr "ann" ]} false); reflexivity.
  - destruct (C7_role_fallback {[ "role" := VStr "manager" ]} false) as [_ H];
      [reflexivity|].
    apply (H "manager"); [reflexivity | discriminate |].
    unfold sidebarRoles. rewrite !not_elem_of_cons, elem_of_nil.
    repeat split; try discriminate. tauto.
Defined.

(** C7 as stated fails: the role "manager" is none of the known values,
    yet neither resolver gives it the staff menu; both give the base
    entry alone. *)
Lemma C7_unknown_role_counterexample :
  let manager := VObj {[ "role" := VStr "manager"; "is_superuser" := VBool false ]} in
  let staff := VObj {[ "role" := VStr "staff"; "is_superuser" := VBool false ]} in
  Header.menuItems manager false = Header.baseMenu
  /\ Header.menuItems manager false <> Header.menuItems staff false
  /\ Sidebar.getMenuItems manager = Sidebar.baseMenu
  /\ Sidebar.getMenuItems manager <> Sidebar.getMenuItems staff.
Proof.
  repeat split; try reflexivity; vm_compute; discriminate.
Qed.

(** ** The route guard *)

(** C6, as the code has it.  The guard decides from [loading],
    [isAuthenticated], [user] and [allowedRoles]: the spinner while
    loading; else a replacing redirect to /login when not authenticated;
    else, when [allowedRoles] is declared and there is a user whose role
    is not in it, a replacing redirect to /dashboard; else the children:
    with no [allowedRoles], with the role in it, and also whenever there
    is no user ([allowedRoles && user] is then falsy, and the role is
    not looked at). *)
Theorem C6_route_guard {Children : Type} (children : Children)
    (allowedRoles : option (list Val)) (isAuthenticated loading : bool)
    (user : Val) :
  let rendered :=
    ProtectedRoute.ProtectedRoute children allowedRoles isAuthenticated loading user in
  (loading = true -> rendered = ProtectedRoute.Spinner)
  /\ (loading = false -> isAuthenticated = false ->
      rendered = ProtectedRoute.Navigate "/login" true)
  /\ (loading = false -> isAuthenticated = true ->
      forall allowed, allowedRoles = Some allowed -> truthy user = true ->
      includes allowed (prop user "role") = false ->
      rendered = ProtectedRoute.Navigate "/dashboard" true)
  /\ (loading = false -> isAuthenticated = true ->
      allowedRoles = None
      \/ (exists allowed, allowedRoles = Some allowed
                          /\ includes allowed (prop user "role") = true) ->
      rendered = ProtectedRoute.Render children)
  /\ (loading = false -> isAuthenticated = true -> truthy user = false ->
      rendered = ProtectedRoute.Render children).
Proof.
  unfold ProtectedRoute.ProtectedRoute. repeat split.
  - by intros ->.
  - by intros -> ->.
  - intros -> -> allowed -> Hu Hnot. simpl. by rewrite Hu, Hnot.
  - intros -> -> [->|(allowed & -> & Hin)]; simpl; [done|].
    rewrite Hin. simpl. by destruct (truthy user).
  - intros -> -> Hu. simpl. rewrite Hu. by destruct allowedRoles.
Qed.

Lemma C6_route_guard_witness :
  ProtectedRoute.ProtectedRoute tt (Some [VStr "admin"]) true false
    (VObj {[ "role" := VStr "approver_level_2"; "is_superuser" := VBool false ]})
  = ProtectedRoute.Navigate "/dashboard" true
  /\ ProtectedRoute.ProtectedRoute tt (Some [VStr "admin"]) false false VNull
    = ProtectedRoute.Navigate "/login" true
  /\ ProtectedRoute.ProtectedRoute tt (Some [VStr "admin"]) false true VNull
    = ProtectedRoute.Spinner
  /\ ProtectedRoute.ProtectedRoute tt (Some [VStr "admin"]) true false
       (VObj {[ "role" := VStr "admin" ]})
    = ProtectedRoute.Render tt
  /\ ProtectedRoute.ProtectedRoute tt (Some [VStr "admin"]) true false VUndefined
    = ProtectedRoute.Render tt.
Proof.
  split; [|split; [|split; [|split]]].
  - apply (C6_route_guard tt (Some [VStr "admin"]) true false
             (VObj {[ "role" := VStr "approver_level_2"; "is_superuser" := VBool false ]}))
      with (allowed := [VStr "admin"]); reflexivity.
  - apply (C6_route_guard tt (Some [VStr "admin"]) false false VNull); reflexivity.
  - apply (C6_route_guard tt (Some [VStr "admin"]) false true VNull); reflexivity.
  - destruct (C6_route_guard tt (Some [VStr "admin"]) true false
                (VObj {[ "role" := VStr "admin" ]})) as (_ & _ & _ & Hrender & _).
    apply Hrender; [reflexivity..|].
    right. exists [VStr "admin"]. split; reflexivity.
  - destruct (C6_route_guard tt (Some [VStr "admin"]) true false VUndefined)
      as (_ & _ & _ & _ & Hnouser).
    apply Hnouser; reflexivity.
Defined.

(** C6 as stated fails: in an authenticated session without a user
    object the role (none) is not in the declared [allowedRoles], yet
    the guard renders the children and does not redirect to /dashboard.
    And the outcome is not a function of the role: [null] and the empty
    object have the same role, and are treated differently. *)
Lemma C6_no_user_counterexample :
  let allowedRoles := Some [VStr "admin"] in
  includes [VStr "admin"] (opt VNull "role") = false
  /\ ProtectedRoute.ProtectedRoute tt allowedRoles true false VNull
     = ProtectedRoute.Render tt
  /\ ProtectedRoute.ProtectedRoute tt allowedRoles true false VNull
     <> ProtectedRoute.Navigate "/dashboard" true
  /\ opt VNull "role" = opt (VObj ∅) "role"
  /\ ProtectedRoute.ProtectedRoute tt allowedRoles true false (VObj ∅)
     = ProtectedRoute.Navigate "/dashboard" true.
Proof.
  split; [reflexivity|]. split; [reflexivity|]. split; [discriminate|].
  split; reflexivity.
Qed.

(** ** The HTTP client *)

Section ApiFacts.

Variable hostname : string.
Variable REACT_APP_API_BASE_URL : Val.
Variable APP_CONFIG : Val.
Variable Server : Type.
Variable serve : Server -> Api.Request -> option (Z * Val) * Server.

Local Abbreviation World := (Api.World Server).
Local Abbreviation api :=
  (Api.api hostname REACT_APP_API_BASE_URL APP_CONFIG Server serve).
Local Abbreviation sent :=
  (Api.sent hostname REACT_APP_API_BASE_URL APP_CONFIG Server).
Local Abbreviation dispatch := (Api.dispatch serve).
Local Abbreviation refreshRequest :=
  (Api.refreshRequest hostname REACT_APP_API_BASE_URL APP_CONFIG).
Local Abbreviation onResponseError :=
  (Api.onResponseError hostname REACT_APP_API_BASE_URL APP_CONFIG Server serve).
Local Abbreviation withDefaults :=
  (Api.withDefaults hostname REACT_APP_API_BASE_URL APP_CONFIG).

Lemma dispatch_eq config w answer srv :
  serve (Api.server w) config = (answer, srv) ->
  dispatch config w = (Api.settle config answer, after w srv [config]).
Proof. unfold Api.dispatch. by intros ->. Qed.

Lemma retry_onRequest config (w : World) :
  Api._retry (Api.onRequest config w) = Api._retry config.
Proof. unfold Api.onRequest. by destruct (truthy _). Qed.

Lemma retry_sent config w : Api._retry (sent config w) = Api._retry config.
Proof. unfold Api.sent. by rewrite retry_onRequest. Qed.

(** Without a 401 answer, or on a config already flagged, the
    interceptor hands the error on and touches nothing. *)
Lemma onResponseError_pass k config answer w :
  (forall b, answer = Some (401%Z, b) -> Api._retry config = true) ->
  forall error, Api.settle config answer = Api.Rejected error ->
  onResponseError k error w = Some (Api.Rejected error, w).
Proof.
  intros H401 error. unfold Api.settle.
  destruct answer as [[st b]|]; [|by intros [= <-]].
  destruct (_ && _); [done|]. intros [= <-]. simpl.
  destruct (st =? 401)%Z eqn:E; [|done].
  apply Z.eqb_eq in E. subst st. by rewrite (H401 b eq_refl).
Qed.

Lemma api_pass fuel config w answer srv :
  serve (Api.server w) (sent config w) = (answer, srv) ->
  (forall b, answer = Some (401%Z, b) -> Api._retry config = true) ->
  api (S fuel) config w =
  Some (Api.settle (sent config w) answer, after w srv [sent config w]).
Proof.
  intros Hserve H401. simpl. fold (sent config w).
  rewrite (dispatch_eq _ _ _ _ Hserve).
  destruct (Api.settle (sent config w) answer) as [response|error] eqn:E; [done|].
  eapply onResponseError_pass; [|exact E].
  intros b Hb. rewrite retry_sent. eauto.
Qed.

(** A flagged config is sent once, whatever the answer. *)
Lemma api_retried fuel config w :
  Api._retry config = true ->
  api (S fuel) config w = Some (dispatch (sent config w) w).
Proof.
  intros Hretry.
  destruct (serve (Api.server w) (sent config w)) as [answer srv] eqn:Hserve.
  rewrite (api_pass fuel config w answer srv Hserve); [|done].
  by rewrite (dispatch_eq _ _ _ _ Hserve).
Qed.

Lemma api_unfold fuel config w :
  api (S fuel) config w =
  let '(settled, w1) := dispatch (sent config w) w in
  match settled with
  | Api.Resolved response => Some (Api.Resolved response, w1)
  | Api.Rejected error => onResponseError (api fuel) error w1
  end.
Proof. reflexivity. Qed.

(** Two units of fuel are enough: more fuel gives the same result. *)
Lemma api_fuel fuel config w : api (S (S fuel)) config w = api 2 config w.
Proof.
  rewrite !api_unfold.
  destruct (dispatch (sent config w) w) as [[response|error] w1]; [done|].
  unfold Api.onResponseError.
  destruct error as [originalRequest [response|]|]; try done.
  destruct (_ && _); [|done].
  destruct (negb _); [done|].
  destruct (Api.dispatch _ _ _) as [[refreshed|refreshError] w2]; [|done].
  destruct (get _ _); [|done].
  by rewrite !api_retried.
Qed.

(** [api] always settles. *)
Lemma api_settles fuel config w :
  2 <= fuel -> exists result, api fuel config w = Some result.
Proof.
  intros Hfuel. destruct fuel as [|[|fuel]]; [lia..|].
  rewrite api_fuel, api_unfold.
  destruct (dispatch (sent config w) w) as [[response|error] w1]; [by eexists|].
  unfold Api.onResponseError.
  destruct error as [originalRequest [response|]|]; try by eexists.
  destruct (_ && _); [|by eexists].
  destruct (negb _); [by eexists|].
  destruct (Api.dispatch _ _ _) as [[refreshed|refreshError] w2]; [|by eexists].
  destruct (get _ _); [|by eexists].
  rewrite api_retried by done. by eexists.
Qed.

(** *** A 401 on a fresh request: refresh, then retry once *)

Lemma union_singleton_id (m : gmap string string) k v x :
  m !! k = Some x -> m ∪ {[ k := v ]} = m.
Proof.
  intros Hk. apply map_eq. intros i. rewrite lookup_union.
  destruct (decide (k = i)) as [<-|Hne].
  - by rewrite Hk, lookup_singleton_eq.
  - rewrite lookup_singleton_ne by done. by destruct (m !! i).
Qed.

Lemma content_type_sent config w :
  is_Some (Api.headers (sent config w) !! "Content-Type").
Proof.
  unfold Api.sent, Api.onRequest.
  assert (H : is_Some (Api.headers (withDefaults config) !! "Content-Type")).
  { simpl. rewrite lookup_union, lookup_singleton_eq. by destruct (_ !! _). }
  destruct (truthy _); [|done]. simpl. by rewrite lookup_insert_ne.
Qed.

Lemma baseURL_sent config w : is_Some (Api.baseURL (sent config w)).
Proof.
  unfold Api.sent, Api.onRequest.
  assert (H : is_Some (Api.baseURL (withDefaults config))).
  { simpl. by destruct (Api.baseURL config). }
  by destruct (truthy _).
Qed.

(** The interceptors leave the request that is sent again as it is: the
    request interceptor writes the very header it already carries. *)
Lemma sent_retriedRequest config w access (w2 : World) :
  Api.storage w2 !! "access_token" = Some (to_string access) ->
  sent (retriedRequest (sent config w) access) w2
  = retriedRequest (sent config w) access.
Proof.
  intros Htoken.
  assert (Hd : withDefaults (retriedRequest (sent config w) access)
               = retriedRequest (sent config w) access).
  { destruct (content_type_sent config w) as [ct Hct].
    destruct (baseURL_sent config w) as [b Hb].
    unfold retriedRequest, Api.withDefaults, Api.set_header, Api.set_retry.
    simpl. rewrite Hb. f_equal.
    apply (union_singleton_id _ _ _ ct). by rewrite lookup_insert_ne. }
  transitivity
    (Api.onRequest (withDefaults (retriedRequest (sent config w) access)) w2);
    [reflexivity|].
  rewrite Hd. unfold Api.onRequest, Api.getItem.
  rewrite Htoken. simpl. destruct (negb _); [|done].
  unfold retriedRequest, Api.set_header. simpl. f_equal.
  by rewrite insert_insert_eq.
Qed.

Lemma settle_2xx config st b :
  (200 <= st < 300)%Z ->
  Api.settle config (Some (st, b)) = Api.Resolved {| Api.status := st; Api.body := b |}.
Proof.
  intros Hst. unfold Api.settle.
  replace ((200 <=? st)%Z && (st <? 300)%Z) with true; [done|].
  symmetry. apply andb_true_iff. split; [apply Z.leb_le|apply Z.ltb_lt]; lia.
Qed.

Lemma getItem_some key (w : World) s :
  Api.storage w !! key = Some s -> s <> "" ->
  Api.getItem key w = VStr s /\ truthy (Api.getItem key w) = true.
Proof.
  intros Hs Hne. unfold Api.getItem. rewrite Hs. simpl.
  by rewrite (proj2 (String.eqb_neq s "") Hne).
Qed.

(** The interceptor on a 401 for an unflagged request, when the refresh
    call succeeds: the new token is stored and the request goes to [k],
    the instance, again. *)
Lemma onResponseError_refreshed k first b (w : World) rt st data access srv2 :
  Api._retry first = false ->
  Api.storage w !! "refresh_token" = Some rt -> rt <> "" ->
  serve (Api.server w) (refreshRequest (VStr rt)) = (Some (st, data), srv2) ->
  (200 <= st < 300)%Z ->
  get data "access" = Some access ->
  onResponseError k
    (Api.AxiosError first (Some {| Api.status := 401; Api.body := b |})) w
  = k (retriedRequest first access)
      (Api.setItem "access_token" (to_string access)
         (after w srv2 [refreshRequest (VStr rt)])).
Proof.
  intros Hfresh Hrt Hne Hrefresh Hst Haccess. unfold Api.onResponseError.
  destruct (getItem_some _ _ _ Hrt Hne) as [-> ->].
  rewrite (dispatch_eq _ _ _ _ Hrefresh), (settle_2xx _ _ _ Hst).
  simpl. by rewrite Hfresh, Haccess.
Qed.

(** The same when the refresh call is rejected: tear-down, and the
    refresh error goes to the caller. *)
Lemma onResponseError_refresh_failed k first b (w : World) rt answer srv2 refreshError :
  Api._retry first = false ->
  Api.storage w !! "refresh_token" = Some rt -> rt <> "" ->
  serve (Api.server w) (refreshRequest (VStr rt)) = (answer, srv2) ->
  Api.settle (refreshRequest (VStr rt)) answer = Api.Rejected refreshError ->
  onResponseError k
    (Api.AxiosError first (Some {| Api.status := 401; Api.body := b |})) w
  = Some (Api.Rejected refreshError,
          Api.teardown (after w srv2 [refreshRequest (VStr rt)])).
Proof.
  intros Hfresh Hrt Hne Hrefresh Hfailed. unfold Api.onResponseError.
  destruct (getItem_some _ _ _ Hrt Hne) as [-> ->].
  rewrite (dispatch_eq _ _ _ _ Hrefresh), Hfailed.
  simpl. by rewrite Hfresh.
Qed.

Lemma settle_401 config b :
  Api.settle config (Some (401%Z, b))
  = Api.Rejected (Api.AxiosError config (Some {| Api.status := 401; Api.body := b |})).
Proof. reflexivity. Qed.

Lemma api_refresh_retry fuel config w b srv1 rt st data access srv2 answer srv3 :
  let first := sent config w in
  let retried := retriedRequest first access in
  Api._retry config = false ->
  serve (Api.server w) first = (Some (401%Z, b), srv1) ->
  Api.storage w !! "refresh_token" = Some rt -> rt <> "" ->
  serve srv1 (refreshRequest (VStr rt)) = (Some (st, data), srv2) ->
  (200 <= st < 300)%Z ->
  get data "access" = Some access ->
  serve srv2 retried = (answer, srv3) ->
  api (S (S fuel)) config w =
  Some (Api.settle retried answer,
        {| Api.storage := <["access_token" := to_string access]> (Api.storage w);
           Api.href := Api.href w;
           Api.server := srv3;
           Api.trace := Api.trace w ++ [first; refreshRequest (VStr rt); retried] |}).
Proof.
  intros first retried Hfresh H401 Hrt Hne Hrefresh Hst Haccess Hretry.
  rewrite api_unfold. fold first.
  rewrite (dispatch_eq _ _ _ _ H401), settle_401.
  rewrite (onResponseError_refreshed _ first b _ rt st data access srv2);
    [|by (unfold first; rewrite retry_sent)|done..].
  rewrite api_retried by done.
  unfold first at 1. rewrite sent_retriedRequest by apply lookup_insert_eq.
  fold first. fold retried.
  rewrite (dispatch_eq _ _ answer srv3) by done.
  unfold after, Api.setItem. simpl. by rewrite <- !app_assoc.
Qed.

(** The interceptors and the defaults leave method, url and data of a
    request alone. *)
Lemma sent_fields config (w : World) :
  Api.method (sent config w) = Api.method config
  /\ Api.url (sent config w) = Api.url config
  /\ Api.data (sent config w) = Api.data config.
Proof. unfold Api.sent, Api.onRequest. by destruct (truthy _). Qed.

(** C1.  A request that is answered 401 and is not flagged, with a
    refresh token in storage and a refresh endpoint that answers with a
    new access token: the client calls the refresh endpoint once (a POST
    to <base URL>/api/token/refresh/ with the stored refresh token as
    body), stores the new token, sends the request again (the same
    method, url and data, flagged and with the new bearer header), and
    settles the caller's promise with the outcome of that second attempt
    (the first 401 is not seen).  A request that is flagged and answered
    401 is rejected with that 401: nothing else is sent and storage is
    as it was. *)
Theorem C1_refresh_and_retry_once (fuel : nat) (config : Api.Request) (w : World) :
  2 <= fuel ->
  let first := sent config w in
  (forall b srv1 rt st data token srv2 answer srv3,
     let retried := retriedRequest first (VStr token) in
     Api._retry config = false ->
     serve (Api.server w) first = (Some (401%Z, b), srv1) ->
     Api.storage w !! "refresh_token" = Some rt -> rt <> "" ->
     serve srv1 (refreshRequest (VStr rt)) = (Some (st, data), srv2) ->
     (200 <= st < 300)%Z ->
     prop data "access" = VStr token ->
     serve srv2 retried = (answer, srv3) ->
     api fuel config w =
       Some (Api.settle retried answer,
             {| Api.storage := <["access_token" := token]> (Api.storage w);
                Api.href := Api.href w;
                Api.server := srv3;
                Api.trace :=
                  Api.trace w ++ [first; refreshRequest (VStr rt); retried] |})
     /\ Api._retry retried = true
     /\ Api.headers retried !! "Authorization" = Some ("Bearer " +:+ token)
     /\ (forall st3 b3, answer = Some (st3, b3) -> (200 <= st3 < 300)%Z ->
           Api.settle retried answer
           = Api.Resolved {| Api.status := st3; Api.body := b3 |})
     /\ refreshRequest (VStr rt) =
          {| Api.method := "post"; Api.baseURL := None;
             Api.url :=
               to_string (Api.getApiBaseUrl hostname REACT_APP_API_BASE_URL APP_CONFIG)
               +:+ "/api/token/refresh/";
             Api.data := VObj {[ "refresh" := VStr rt ]};
             Api.headers := ∅; Api._retry := false |}
     /\ retried =
          {| Api.method := Api.method config; Api.baseURL := Api.baseURL first;
             Api.url := Api.url config; Api.data := Api.data config;
             Api.headers :=
               <["Authorization" := "Bearer " +:+ token]> (Api.headers first);
             Api._retry := true |}
     /\ Api.method first = Api.method config
     /\ Api.url first = Api.url config
     /\ Api.data first = Api.data config)
  /\ (forall b srv1,
       Api._retry config = true ->
       serve (Api.server w) first = (Some (401%Z, b), srv1) ->
       api fuel config w =
         Some (Api.Rejected
                 (Api.AxiosError first
                    (Some {| Api.status := 401; Api.body := b |})),
               {| Api.storage := Api.storage w; Api.href := Api.href w;
                  Api.server := srv1; Api.trace := Api.trace w ++ [first] |})).
Proof.
  intros Hfuel first. destruct fuel as [|[|fuel]]; [lia..|].
  destruct (sent_fields config w) as (Hmethod & Hurl & Hdata).
  fold first in Hmethod, Hurl, Hdata.
  split.
  - intros b srv1 rt st data token srv2 answer srv3 retried
      Hfresh H401 Hrt Hne Hrefresh Hst Haccess Hretry.
    split; [|split; [done|split; [|split; [|split; [done|split]]]]].
    + apply (api_refresh_retry fuel config w b srv1 rt st data (VStr token)
               srv2 answer srv3); try done.
      unfold get. destruct data; try discriminate Haccess. simpl in *.
      by rewrite Haccess.
    + unfold retried, retriedRequest. simpl. apply lookup_insert_eq.
    + intros st3 b3 -> Hst3. simpl.
      replace ((200 <=? st3)%Z && (st3 <? 300)%Z) with true; [done|].
      symmetry. apply andb_true_iff. split; [apply Z.leb_le|apply Z.ltb_lt]; lia.
    + unfold retried, retriedRequest, Api.set_header, Api.set_retry. simpl.
      by rewrite Hmethod, Hurl, Hdata.
    + done.
  - intros b srv1 Hflag H401.
    by rewrite (api_pass _ _ _ _ _ H401).
Qed.

(** *** A 401 when the refresh call fails *)

Lemma refreshRequest_not_sent refreshToken config w :
  refreshRequest refreshToken <> sent config w
  /\ refreshRequest refreshToken <> Api.set_retry (sent config w).
Proof.
  destruct (content_type_sent config w) as [ct Hct].
  split; intros Heq; apply (f_equal Api.headers) in Heq; simpl in Heq;
    rewrite <- Heq in Hct; by rewrite lookup_empty in Hct.
Qed.

Lemma lookup_teardown (w : World) key :
  Api.storage (Api.teardown w) !! key =
  if decide (key ∈ ["access_token"; "refresh_token"; "user"]) then None
  else Api.storage w !! key.
Proof.
  unfold Api.teardown, Api.set_href, Api.removeItem. simpl.
  case_decide as Hkey.
  - rewrite !elem_of_cons, elem_of_nil in Hkey.
    destruct Hkey as [->|[->|[->|[]]]];
      rewrite ?lookup_delete_eq, ?lookup_delete_ne by done;
      rewrite ?lookup_delete_eq, ?lookup_delete_ne by done;
      by rewrite ?lookup_delete_eq.
  - rewrite !not_elem_of_cons in Hkey. destruct_and!.
    by rewrite !lookup_delete_ne.
Qed.

(** C2.  A request that is answered 401 and is not flagged, with a
    refresh token in storage, when the refresh call is rejected (no
    answer, or a status outside 2xx): the three keys are removed from
    storage and no other key changes, the location is set to /login, and
    the caller's promise is rejected with the error of the refresh call,
    which is not the 401 error of the request. *)
Theorem C2_refresh_failure_tears_down
    (fuel : nat) (config : Api.Request) (w : World)
    (b : Val) (srv1 : Server) (rt : string) (answer : option (Z * Val))
    (srv2 : Server) (refreshError : Api.Error) :
  2 <= fuel ->
  let first := sent config w in
  let original :=
    Api.AxiosError first (Some {| Api.status := 401; Api.body := b |}) in
  let flagged :=
    Api.AxiosError (Api.set_retry first)
      (Some {| Api.status := 401; Api.body := b |}) in
  Api._retry config = false ->
  serve (Api.server w) first = (Some (401%Z, b), srv1) ->
  Api.storage w !! "refresh_token" = Some rt -> rt <> "" ->
  serve srv1 (refreshRequest (VStr rt)) = (answer, srv2) ->
  Api.settle (refreshRequest (VStr rt)) answer = Api.Rejected refreshError ->
  exists w',
    api fuel config w = Some (Api.Rejected refreshError, w')
    /\ Api.storage w' !! "access_token" = None
    /\ Api.storage w' !! "refresh_token" = None
    /\ Api.storage w' !! "user" = None
    /\ (forall key, key ∉ ["access_token"; "refresh_token"; "user"] ->
          Api.storage w' !! key = Api.storage w !! key)
    /\ Api.href w' = "/login"
    /\ Api.trace w' = Api.trace w ++ [first; refreshRequest (VStr rt)]
    /\ refreshError <> original /\ refreshError <> flagged.
Proof.
  intros Hfuel first original flagged Hfresh H401 Hrt Hne Hrefresh Hfailed.
  destruct fuel as [|[|fuel]]; [lia..|].
  eexists. split.
  { rewrite api_unfold. fold first.
    rewrite (dispatch_eq _ _ _ _ H401), settle_401.
    apply (onResponseError_refresh_failed _ first b _ rt answer srv2);
      [by (unfold first; rewrite retry_sent)|done..]. }
  rewrite !lookup_teardown. simpl.
  split; [done|]. split; [done|]. split; [done|]. split.
  { intros key Hkey. rewrite !not_elem_of_cons in Hkey. destruct_and!.
    by rewrite !lookup_delete_ne. }
  split; [done|]. split; [by rewrite <- app_assoc|].
  destruct (refreshRequest_not_sent (VStr rt) config w) as [Hne1 Hne2].
  unfold Api.settle in Hfailed.
  destruct answer as [[st data]|];
    [destruct (_ && _); [done|]|]; injection Hfailed as <-;
    split; intros [= Heq]; done.
Qed.

(** *** Failures without a response *)

Lemma onResponseError_no_response k error (w : World) :
  (forall config response, error <> Api.AxiosError config (Some response)) ->
  onResponseError k error w = Some (Api.Rejected error, w).
Proof.
  intros Hno. destruct error as [config [response|]|]; try done.
  by destruct (Hno config response).
Qed.

(** C8.  A request that gets no response at all is rejected with that
    very error: the only request sent is the request itself, storage and
    location are as they were.  The same holds for every answer that is
    not a 401: the refresh endpoint is called on a 401 only. *)
Theorem C8_network_failure_passes
    (fuel : nat) (config : Api.Request) (w : World) :
  1 <= fuel ->
  let first := sent config w in
  (forall srv1,
     serve (Api.server w) first = (None, srv1) ->
     api fuel config w =
       Some (Api.Rejected (Api.AxiosError first None),
             {| Api.storage := Api.storage w; Api.href := Api.href w;
                Api.server := srv1; Api.trace := Api.trace w ++ [first] |}))
  /\ (forall answer srv1,
       serve (Api.server w) first = (answer, srv1) ->
       (forall b, answer <> Some (401%Z, b)) ->
       api fuel config w =
         Some (Api.settle first answer,
               {| Api.storage := Api.storage w; Api.href := Api.href w;
                  Api.server := srv1; Api.trace := Api.trace w ++ [first] |}))
  /\ (forall k error (w1 : World),
       (forall c response, error <> Api.AxiosError c (Some response)) ->
       onResponseError k error w1 = Some (Api.Rejected error, w1)).
Proof.
  intros Hfuel first. destruct fuel as [|fuel]; [lia|].
  split; [|split].
  - intros srv1 Hserve. by rewrite (api_pass _ _ _ _ _ Hserve).
  - intros answer srv1 Hserve Hnot.
    rewrite (api_pass _ _ _ _ _ Hserve); [done|].
    intros b ->. by destruct (Hnot b).
  - apply onResponseError_no_response.
Qed.

End ApiFacts.

Lemma C1_refresh_and_retry_once_witness :
  exists w',
    call 2 listRequests staleSession
    = Some (Api.Resolved {| Api.status := 200; Api.body := VStr "rows" |}, w')
    /\ Api.storage w' !! "access_token" = Some "new"
    /\ map Api.url (Api.trace w')
       = ["/api/requests/"; "http://localhost:8000/api/token/refresh/";
          "/api/requests/"].
Proof.
  destruct (C1_refresh_and_retry_once "localhost" VUndefined VUndefined
              unit backend 2 listRequests staleSession (le_n 2))
    as [Hfresh _].
  destruct (Hfresh VNull tt "r1" 200%Z
              (VObj {[ "access" := VStr "new" ]}) "new"
              tt (Some (200%Z, VStr "rows")) tt)
    as (Hrun & _); [reflexivity | reflexivity | reflexivity | discriminate
                    | reflexivity | lia | reflexivity | reflexivity |].
  eexists. split; [exact Hrun|]. split; reflexivity.
Defined.

Lemma C2_refresh_failure_tears_down_witness :
  exists refreshError w',
    run 2 listRequests
      (session [ Some (401%Z, VNull); Some (401%Z, VStr "expired") ])
    = Some (Api.Rejected refreshError, w')
    /\ Api.storage w' !! "user" = None
    /\ Api.href w' = "/login".
Proof.
  pose (script := [ Some (401%Z, VNull); Some (401%Z, VStr "expired") ] : Script).
  destruct (C2_refresh_failure_tears_down "localhost" VUndefined VUndefined
              Script scripted 2 listRequests (session script)
              VNull (tail script) "r1" (Some (401%Z, VStr "expired")) []
              (Api.AxiosError
                 (Api.refreshRequest "localhost" VUndefined VUndefined (VStr "r1"))
                 (Some {| Api.status := 401; Api.body := VStr "expired" |})))
    as (w' & Hrun & _ & _ & Huser & _ & Hhref & _);
    [lia | reflexivity | reflexivity | reflexivity | discriminate
     | reflexivity | reflexivity |].
  exists (Api.AxiosError
            (Api.refreshRequest "localhost" VUndefined VUndefined (VStr "r1"))
            (Some {| Api.status := 401; Api.body := VStr "expired" |})), w'.
  split; [exact Hrun|]. split; [exact Huser|exact Hhref].
Defined.

Lemma C8_network_failure_passes_witness :
  exists first,
    run 1 listRequests (session [])
    = Some (Api.Rejected (Api.AxiosError first None),
            {| Api.storage := Api.storage (session []);
               Api.href := "/dashboard"; Api.server := [];
               Api.trace := [first] |}).
Proof.
  destruct (C8_network_failure_passes "localhost" VUndefined VUndefined
              Script scripted 1 listRequests (session []) (le_n 1))
    as (Hnone & _).
  eexists. apply (Hnone []). reflexivity.
Defined.

(** ** Normalizing the user payload *)

Lemma strict_eq_undefined (v : Val) :
  strict_eq v VUndefined = false <-> v <> VUndefined.
Proof. destruct v; simpl; split; done. Qed.

Lemma normalize_with_role (fields : gmap string Val) (r : Val) :
  fields !! "role" = Some r -> r <> VUndefined ->
  AuthContext.normalizeUserData (VObj fields) =
  Some (VObj (<["is_superuser" :=
                 or (or (VBool (strict_eq r (VStr "admin")))
                        (prop (VObj fields) "is_superuser"))
                    (VBool false)]> fields)).
Proof.
  intros Hrole Hdef. unfold AuthContext.normalizeUserData, get. simpl.
  rewrite Hrole. simpl. by rewrite (proj2 (strict_eq_undefined r) Hdef).
Qed.

Lemma normalize_superuser (userData : Val) :
  get userData "role" = Some VUndefined ->
  truthy (prop userData "is_superuser") = true ->
  AuthContext.normalizeUserData userData =
  Some (AuthContext.obj
          [("id", prop userData "id"); ("username", prop userData "username");
           ("email", prop userData "email"); ("role", VStr "admin");
           ("role_display", VStr "Administrator"); ("is_superuser", VBool true)]).
Proof.
  intros Hrole Hsu. unfold AuthContext.normalizeUserData. rewrite Hrole. simpl.
  by rewrite or_false_truthy, Hsu.
Qed.

Lemma normalize_regular (userData : Val) :
  get userData "role" = Some VUndefined ->
  truthy (prop userData "is_superuser") = false ->
  exists u,
    AuthContext.normalizeUserData userData = Some u
    /\ prop u "role" =
       (if truthy (prop userData "profile")
        then or (prop (prop userData "profile") "role") VNull
        else VNull)
    /\ prop u "is_superuser" = VBool false.
Proof.
  intros Hrole Hsu. unfold AuthContext.normalizeUserData. rewrite Hrole. simpl.
  rewrite or_false_truthy, Hsu.
  destruct (truthy (prop userData "profile")); eexists; split; try done.
Qed.

(** C5, as the code has it.  A payload without a role and with a true
    [is_superuser] is normalized to role admin, role_display
    Administrator and is_superuser true.  A payload without a role and
    without a true [is_superuser] gets the role of its profile, and the
    role [null] when it has no profile or the profile has no role.  A
    payload with a role keeps that role as it is. *)
Theorem C5_normalized_role (userData : Val) :
  (get userData "role" = Some VUndefined ->
   truthy (prop userData "is_superuser") = true ->
   exists u,
     AuthContext.normalizeUserData userData = Some u
     /\ prop u "role" = VStr "admin"
     /\ prop u "role_display" = VStr "Administrator"
     /\ prop u "is_superuser" = VBool true)
  /\ (get userData "role" = Some VUndefined ->
      truthy (prop userData "is_superuser") = false ->
      exists u,
        AuthContext.normalizeUserData userData = Some u
        /\ prop u "role" =
           (if truthy (prop userData "profile")
            then or (prop (prop userData "profile") "role") VNull
            else VNull))
  /\ (forall r, get userData "role" = Some r -> r <> VUndefined ->
      exists u,
        AuthContext.normalizeUserData userData = Some u /\ prop u "role" = r).
Proof.
  split; [|split].
  - intros Hrole Hsu. rewrite (normalize_superuser _ Hrole Hsu).
    eexists. split; [done|]. split; [|split]; reflexivity.
  - intros Hrole Hsu.
    destruct (normalize_regular _ Hrole Hsu) as (u & Hu & Hr & _). eauto.
  - intros r Hrole Hdef. unfold get in Hrole.
    destruct userData; try (simpl in Hrole; congruence).
    simpl in Hrole. injection Hrole as Hrole.
    destruct (fields !! "role") as [r'|] eqn:E; simpl in Hrole; [|congruence].
    subst r'. rewrite (normalize_with_role _ _ E Hdef).
    eexists. split; [done|]. simpl. by rewrite lookup_insert_ne, E.
Qed.

Lemma C5_normalized_role_witness :
  exists u,
    AuthContext.normalizeUserData
      (VObj {[ "id" := VNum 1; "username" := VStr "root";
               "is_superuser" := VBool true ]}) = Some u
    /\ prop u "role" = VStr "admin"
    /\ prop u "role_display" = VStr "Administrator"
    /\ prop u "is_superuser" = VBool true.
Proof.
  apply (C5_normalized_role
           (VObj {[ "id" := VNum 1; "username" := VStr "root";
                    "is_superuser" := VBool true ]})); reflexivity.
Defined.

(** C5 as stated fails: a payload with no role, no true [is_superuser]
    and no profile is normalized to an identity whose role is [null];
    and a payload whose role is the empty string keeps it. *)
Lemma C5_empty_role_counterexample :
  (exists u,
     AuthContext.normalizeUserData
       (VObj {[ "id" := VNum 7; "username" := VStr "bob";
                "email" := VStr "bob@example.org" ]}) = Some u
     /\ prop u "role" = VNull /\ truthy (prop u "role") = false)
  /\ (exists u,
       AuthContext.normalizeUserData
         (VObj {[ "id" := VNum 8; "role" := VStr "" ]}) = Some u
       /\ prop u "role" = VStr "" /\ truthy (prop u "role") = false).
Proof.
  split; eexists; (split; [reflexivity|]); split; reflexivity.
Qed.

(** C9.  A payload that carries a top-level role is returned with its
    own properties and with [is_superuser] set again: to [true] when the
    role is admin, whatever the payload's own flag.  So for such a
    payload, the normalized identity has role admin only with
    is_superuser true. *)
Theorem C9_admin_role_forces_superuser (fields : gmap string Val) (r : Val) :
  fields !! "role" = Some r -> r <> VUndefined ->
  exists normalized,
    AuthContext.normalizeUserData (VObj fields) = Some (VObj normalized)
    /\ normalized !! "role" = Some r
    /\ (forall key, key <> "is_superuser" -> normalized !! key = fields !! key)
    /\ (r = VStr "admin" -> normalized !! "is_superuser" = Some (VBool true))
    /\ (prop (VObj normalized) "role" = VStr "admin" ->
        prop (VObj normalized) "is_superuser" = VBool true).
Proof.
  intros Hrole Hdef. rewrite (normalize_with_role _ _ Hrole Hdef).
  assert (Hadmin : r = VStr "admin" ->
            or (or (VBool (strict_eq r (VStr "admin")))
                   (prop (VObj fields) "is_superuser")) (VBool false)
            = VBool true).
  { by intros ->. }
  set (flag := or _ _) in *.
  eexists. split; [done|].
  split; [by rewrite lookup_insert_ne|].
  split; [intros key Hkey; by rewrite lookup_insert_ne|].
  split.
  - intros Hr. by rewrite lookup_insert_eq, (Hadmin Hr).
  - simpl. rewrite lookup_insert_ne, Hrole by done. simpl. intros Hr.
    by rewrite lookup_insert_eq, (Hadmin Hr).
Qed.

Lemma C9_admin_role_forces_superuser_witness :
  exists normalized,
    AuthContext.normalizeUserData
      (VObj {[ "role" := VStr "admin"; "is_superuser" := VBool false ]})
    = Some (VObj normalized)
    /\ normalized !! "is_superuser" = Some (VBool true).
Proof.
  destruct (C9_admin_role_forces_superuser
              {[ "role" := VStr "admin"; "is_superuser" := VBool false ]}
              (VStr "admin"))
    as (normalized & Hn & _ & _ & Hsu & _); [reflexivity | discriminate |].
  exists normalized. split; [exact Hn | by apply Hsu].
Defined.

(** ** Restoring the session *)

Section AuthFacts.

Variable hostname : string.
Variable REACT_APP_API_BASE_URL : Val.
Variable APP_CONFIG : Val.
Variable Server : Type.
Variable serve : Server -> Api.Request -> option (Z * Val) * Server.
Variable stringify : Val -> string.

Local Abbreviation initAuth :=
  (AuthContext.initAuth hostname REACT_APP_API_BASE_URL APP_CONFIG Server serve
     stringify).

Local Abbreviation logout := (@AuthContext.logout Server).
Local Abbreviation updateUser := (AuthContext.updateUser Server stringify).

Lemma lookup_clearSession (w : Api.World Server) key :
  Api.storage (AuthContext.clearSession Server w) !! key =
  if decide (key ∈ ["access_token"; "refresh_token"; "user"]) then None
  else Api.storage w !! key.
Proof. apply (lookup_teardown Server w key). Qed.

(** [logout] removes the three keys, keeps every other key, and never
    sends a request; a second [logout] changes nothing. *)
Lemma logout_clears st (w : Api.World Server) :
  let '(st', w') := logout st w in
  AuthContext.isAuthenticated st' = false
  /\ AuthContext.user st' = VNull
  /\ (forall key, Api.storage w' !! key =
                  if decide (key ∈ ["access_token"; "refresh_token"; "user"])
                  then None else Api.storage w !! key)
  /\ Api.trace w' = Api.trace w /\ Api.href w' = Api.href w.
Proof.
  simpl. split; [done|]. split; [done|]. split; [|done].
  intros key. apply lookup_clearSession.
Qed.

(** Calling [logout] a second time changes nothing. *)
Lemma logout_twice st (w : Api.World Server) :
  logout (logout st w).1 (logout st w).2 = logout st w.
Proof.
  unfold AuthContext.logout. simpl. f_equal.
  assert (H : Api.storage (AuthContext.clearSession Server
                             (AuthContext.clearSession Server w))
              = Api.storage (AuthContext.clearSession Server w)).
  { apply map_eq. intros key. rewrite !lookup_clearSession. by case_decide. }
  destruct w as [storage href server trace].
  unfold AuthContext.clearSession, Api.removeItem in *. simpl in *. by f_equal.
Qed.

(** [updateUser] writes the user key and leaves the tokens alone. *)
Lemma updateUser_keeps_tokens userData st (w : Api.World Server) key :
  key <> "user" ->
  Api.storage (updateUser userData st w).2 !! key = Api.storage w !! key.
Proof. intros Hkey. simpl. by rewrite lookup_insert_ne. Qed.

(** [initAuth] always finishes, and finishes not loading. *)
Lemma initAuth_settles fuel st (w : Api.World Server) :
  2 <= fuel ->
  exists st' w', initAuth fuel st w = Some (st', w')
                 /\ AuthContext.loading st' = false.
Proof.
  intros Hfuel. unfold AuthContext.initAuth.
  destruct (_ && _); [|by eexists _, _].
  unfold AuthContext.getCurrentUser.
  destruct (api_settles hostname REACT_APP_API_BASE_URL APP_CONFIG Server serve
              fuel
              {| Api.method := "get"; Api.baseURL := None;
                 Api.url := "/api/auth/me/"; Api.data := VUndefined;
                 Api.headers := ∅; Api._retry := false |} w Hfuel)
    as [[settled w1] ->].
  simpl. destruct settled as [response|error]; [|by eexists _, _].
  destruct (AuthContext.normalizeUserData _); by eexists _, _.
Qed.

Lemma initAuth_skips fuel st (w : Api.World Server) :
  truthy (Api.getItem "user" w) && truthy (Api.getItem "access_token" w) = false ->
  initAuth fuel st w =
  Some ({| AuthContext.user := VNull; AuthContext.loading := false;
           AuthContext.isAuthenticated := false |}, w).
Proof. intros H. unfold AuthContext.initAuth. by rewrite H. Qed.

(** C10.  When the stored user or the stored access token is missing,
    [initAuth] ends with no user, not authenticated and not loading, and
    leaves the world as it found it: the same storage, the same
    location, no request sent. *)
Theorem C10_restore_without_both_keys
    (fuel : nat) (st : AuthContext.AuthState) (w : Api.World Server) :
  Api.storage w !! "user" = None \/ Api.storage w !! "access_token" = None ->
  initAuth fuel st w =
  Some ({| AuthContext.user := VNull; AuthContext.loading := false;
           AuthContext.isAuthenticated := false |}, w).
Proof.
  intros Hmissing. apply initAuth_skips. unfold Api.getItem.
  destruct Hmissing as [-> | ->]; simpl; [done|]. apply andb_false_r.
Qed.

End AuthFacts.

Lemma C10_restore_without_both_keys_witness :
  let w := {| Api.storage := {[ "user" := "ann"; "refresh_token" := "r1" ]};
              Api.href := "/requests/all"; Api.server := [];
              Api.trace := [] |} in
  AuthContext.initAuth "localhost" VUndefined VUndefined Script scripted
    Js.to_string 2 AuthContext.initialState w
  = Some ({| AuthContext.user := VNull; AuthContext.loading := false;
             AuthContext.isAuthenticated := false |}, w).
Proof.
  apply (C10_restore_without_both_keys "localhost" VUndefined VUndefined
           Script scripted Js.to_string 2 AuthContext.initialState).
  right. reflexivity.
Defined.

(* ===================================================================== *)
(** * Further properties *)
(* ===================================================================== *)

(** ** Every run of the HTTP client *)

Section ApiRuns.

Variable hostname : string.
Variable REACT_APP_API_BASE_URL : Val.
Variable APP_CONFIG : Val.
Variable Server : Type.
Variable serve : Server -> Api.Request -> option (Z * Val) * Server.

Local Abbreviation World := (Api.World Server).
Local Abbreviation api :=
  (Api.api hostname REACT_APP_API_BASE_URL APP_CONFIG Server serve).
Local Abbreviation sent :=
  (Api.sent hostname REACT_APP_API_BASE_URL APP_CONFIG Server).
Local Abbreviation dispatch := (Api.dispatch serve).
Local Abbreviation refreshRequest :=
  (Api.refreshRequest hostname REACT_APP_API_BASE_URL APP_CONFIG).
Local Abbreviation onResponseError :=
  (Api.onResponseError hostname REACT_APP_API_BASE_URL APP_CONFIG Server serve).
Local Abbreviation getApiBaseUrl :=
  (Api.getApiBaseUrl hostname REACT_APP_API_BASE_URL APP_CONFIG).

Lemma after_after (w : World) srv1 srv2 l1 l2 :
  after (after w srv1 l1) srv2 l2 = after w srv2 (l1 ++ l2).
Proof. unfold after. simpl. by rewrite app_assoc. Qed.

Lemma setItem_after key value (w : World) srv l :
  Api.setItem key value (after w srv l) = after (Api.setItem key value w) srv l.
Proof. reflexivity. Qed.

(** The four ways a call can go: the request alone; the request and a
    tear-down for want of a refresh token; the request, a refresh call
    that brings no token, and a tear-down; the request, a refresh call,
    the new token stored, and the request again. *)
Lemma api_shapes fuel config (w : World) :
  let first := sent config w in
  exists r w', api (S (S fuel)) config w = Some (r, w') /\
  ((exists answer srv, r = Api.settle first answer /\ w' = after w srv [first])
   \/ (exists b srv,
         truthy (Api.getItem "refresh_token" w) = false
         /\ r = Api.Rejected
                  (Api.AxiosError (Api.set_retry first)
                     (Some {| Api.status := 401; Api.body := b |}))
         /\ w' = Api.teardown (after w srv [first]))
   \/ (exists error srv rt,
         r = Api.Rejected error
         /\ w' = Api.teardown (after w srv [first; refreshRequest rt]))
   \/ (exists access answer srv rt,
         r = Api.settle (retriedRequest first access) answer
         /\ w' = after (Api.setItem "access_token" (to_string access) w) srv
                   [first; refreshRequest rt; retriedRequest first access])).
Proof.
  intros first. rewrite api_unfold. fold first.
  destruct (serve (Api.server w) first) as [answer srv1] eqn:Hfirst.
  rewrite (dispatch_eq _ _ _ _ _ _ Hfirst).
  destruct (Api.settle first answer) as [response|error] eqn:Hsettle.
  { eexists _, _. split; [done|]. left. exists answer, srv1. by rewrite Hsettle. }
  assert (Hpass :
    (forall b, answer = Some (401%Z, b) -> Api._retry first = true) ->
    exists r w',
      onResponseError (api (S fuel)) error (after w srv1 [first]) = Some (r, w')
      /\ exists answer srv, r = Api.settle first answer /\ w' = after w srv [first]).
  { intros Hflag. eexists _, _. split.
    - by eapply onResponseError_pass.
    - exists answer, srv1. by rewrite Hsettle. }
  destruct answer as [[st b]|];
    [|destruct Hpass as (r & w' & -> & H); [done|]; by exists r, w'; eauto].
  destruct (decide (st = 401%Z)) as [->|Hst];
    [|destruct Hpass as (r & w' & -> & H); [congruence|]; by exists r, w'; eauto].
  destruct (Api._retry first) eqn:Hretry;
    [destruct Hpass as (r & w' & -> & H); [done|]; by exists r, w'; eauto|].
  clear Hpass. rewrite settle_401 in Hsettle. injection Hsettle as <-.
  pose proof (api_retried hostname REACT_APP_API_BASE_URL APP_CONFIG Server serve
                fuel) as Hk.
  set (k := api (S fuel)) in *.
  unfold Api.onResponseError. simpl. rewrite Hretry. simpl.
  change (Api.getItem "refresh_token" (after w srv1 [first]))
    with (Api.getItem "refresh_token" w).
  destruct (truthy (Api.getItem "refresh_token" w)) eqn:Htoken; simpl.
  2:{ eexists _, _. split; [done|]. right. left. by exists b, srv1. }
  destruct (serve srv1 (refreshRequest (Api.getItem "refresh_token" w)))
    as [answer2 srv2] eqn:Hrefresh.
  rewrite (dispatch_eq _ _ _ (after w srv1 [first]) answer2 srv2) by done.
  rewrite after_after. simpl.
  destruct (Api.settle _ answer2) as [response|refreshError].
  2:{ eexists _, _. split; [done|]. right. right. left. by eexists _, _, _. }
  destruct (get (Api.body response) "access") as [access|].
  2:{ eexists _, _. split; [done|]. right. right. left. by eexists _, _, _. }
  rewrite Hk by done.
  fold (retriedRequest first access). unfold first at 1.
  rewrite sent_retriedRequest by apply lookup_insert_eq. fold first.
  destruct (serve srv2 (retriedRequest first access)) as [answer3 srv3] eqn:Hretried.
  erewrite dispatch_eq by (simpl; exact Hretried).
  rewrite setItem_after, after_after. simpl.
  eexists _, _. split; [done|]. right. right. right. by eexists _, _, _, _.
Qed.

Lemma api_frame fuel config (w w' : World) r key :
  api (S (S fuel)) config w = Some (r, w') ->
  key ∉ sessionKeys -> Api.storage w' !! key = Api.storage w !! key.
Proof.
  destruct (api_shapes fuel config w) as (r0 & w0 & -> & Hshape).
  intros [= <- <-] Hkey.
  assert (Hne : key <> "access_token").
  { intros ->. apply Hkey. by constructor. }
  destruct Hshape as [(? & ? & _ & ->)|[(? & ? & _ & _ & ->)|
    [(? & ? & ? & _ & ->)|(? & ? & ? & ? & _ & ->)]]];
    rewrite ?lookup_teardown; simpl; rewrite ?decide_False by done;
    rewrite ?lookup_insert_ne by done; done.
Qed.

(** Whatever the server does, a call changes no storage key other than
    the three session keys. *)
Theorem api_keeps_other_keys fuel config (w : World) :
  match api (S (S fuel)) config w with
  | Some (_, w') =>
      forall key, key ∉ sessionKeys -> Api.storage w' !! key = Api.storage w !! key
  | None => False
  end.
Proof.
  destruct (api_shapes fuel config w) as (r & w' & -> & Hshape).
  intros key Hkey.
  assert (Hne : key <> "access_token").
  { intros ->. apply Hkey. by constructor. }
  destruct Hshape as [(? & ? & _ & ->)|[(? & ? & _ & _ & ->)|
    [(? & ? & ? & _ & ->)|(? & ? & ? & ? & _ & ->)]]];
    rewrite ?lookup_teardown; simpl; rewrite ?decide_False by done;
    rewrite ?lookup_insert_ne by done; done.
Qed.

(** The requests of a call, with the refresh call made for the refresh
    token that storage holds. *)
Lemma api_requests fuel config (w : World) :
  let first := sent config w in
  let refresh := refreshRequest (Api.getItem "refresh_token" w) in
  exists r w', api (S (S fuel)) config w = Some (r, w') /\
  (Api.trace w' = Api.trace w ++ [first]
   \/ Api.trace w' = Api.trace w ++ [first; refresh]
   \/ exists access,
        Api.trace w' = Api.trace w ++ [first; refresh; retriedRequest first access]
        /\ Api.storage w' !! "access_token" = Some (to_string access)).
Proof.
  intros first refresh. rewrite api_unfold. fold first.
  destruct (serve (Api.server w) first) as [answer srv1] eqn:Hfirst.
  rewrite (dispatch_eq _ _ _ _ _ _ Hfirst).
  destruct (Api.settle first answer) as [response|error] eqn:Hsettle.
  { eexists _, _. split; [done|]. by left. }
  assert (Hpass :
    (forall b, answer = Some (401%Z, b) -> Api._retry first = true) ->
    onResponseError (api (S fuel)) error (after w srv1 [first])
    = Some (Api.Rejected error, after w srv1 [first])).
  { intros Hflag. by eapply onResponseError_pass. }
  destruct answer as [[st b]|];
    [|rewrite Hpass by done; eexists _, _; split; [done|]; by left].
  destruct (decide (st = 401%Z)) as [->|Hst];
    [|rewrite Hpass by congruence; eexists _, _; split; [done|]; by left].
  destruct (Api._retry first) eqn:Hretry;
    [rewrite Hpass by done; eexists _, _; split; [done|]; by left|].
  clear Hpass. rewrite settle_401 in Hsettle. injection Hsettle as <-.
  pose proof (api_retried hostname REACT_APP_API_BASE_URL APP_CONFIG Server serve
                fuel) as Hk.
  set (k := api (S fuel)) in *.
  unfold Api.onResponseError. simpl. rewrite Hretry. simpl.
  change (Api.getItem "refresh_token" (after w srv1 [first]))
    with (Api.getItem "refresh_token" w).
  destruct (truthy (Api.getItem "refresh_token" w)) eqn:Htoken; simpl.
  2:{ eexists _, _. split; [done|]. by left. }
  fold refresh.
  destruct (serve srv1 refresh) as [answer2 srv2] eqn:Hrefresh.
  rewrite (dispatch_eq _ _ _ (after w srv1 [first]) answer2 srv2) by done.
  rewrite after_after. simpl.
  destruct (Api.settle _ answer2) as [response|refreshError].
  2:{ eexists _, _. split; [done|]. right. by left. }
  destruct (get (Api.body response) "access") as [access|].
  2:{ eexists _, _. split; [done|]. right. by left. }
  rewrite Hk by done.
  fold (retriedRequest first access). unfold first at 1.
  rewrite sent_retriedRequest by apply lookup_insert_eq. fold first.
  destruct (serve srv2 (retriedRequest first access)) as [answer3 srv3] eqn:Hretried.
  erewrite dispatch_eq by (simpl; exact Hretried).
  rewrite setItem_after, after_after. simpl.
  eexists _, _. split; [done|]. right. right. exists access.
  split; [done|]. apply lookup_insert_eq.
Qed.

(** A call sends the request itself first (the method, url and data of
    the config it was given), then nothing more, or one refresh call, or
    one refresh call and the request again: never a second refresh,
    never a third attempt.  The refresh call is a POST to
    <base URL>/api/token/refresh/ whose body holds the stored refresh
    token; the second attempt has the method, url and data of the
    config, the flag, and as bearer the access token that is then in
    storage. *)
Theorem api_sends_at_most_three fuel config (w : World) :
  match api (S (S fuel)) config w with
  | Some (_, w') =>
      let first := sent config w in
      let refresh :=
        {| Api.method := "post"; Api.baseURL := None;
           Api.url := to_string getApiBaseUrl +:+ "/api/token/refresh/";
           Api.data := VObj {[ "refresh" := Api.getItem "refresh_token" w ]};
           Api.headers := ∅; Api._retry := false |} in
      Api.method first = Api.method config
      /\ Api.url first = Api.url config
      /\ Api.data first = Api.data config
      /\ (Api.trace w' = Api.trace w ++ [first]
          \/ Api.trace w' = Api.trace w ++ [first; refresh]
          \/ exists access,
               Api.storage w' !! "access_token" = Some (to_string access)
               /\ Api.trace w' =
                  Api.trace w ++
                  [first; refresh;
                   {| Api.method := Api.method config;
                      Api.baseURL := Api.baseURL first;
                      Api.url := Api.url config;
                      Api.data := Api.data config;
                      Api.headers :=
                        <["Authorization" := "Bearer " +:+ to_string access]>
                          (Api.headers first);
                      Api._retry := true |}])
  | None => False
  end.
Proof.
  destruct (api_requests fuel config w) as (r & w' & -> & Htrace). simpl.
  destruct (sent_fields hostname REACT_APP_API_BASE_URL APP_CONFIG Server config w)
    as (Hmethod & Hurl & Hdata).
  split; [done|]. split; [done|]. split; [done|].
  destruct Htrace as [Htrace|[Htrace|(access & Htrace & Hstored)]].
  - by left.
  - right. by left.
  - right. right. exists access. split; [done|]. rewrite Htrace.
    unfold retriedRequest, Api.set_header, Api.set_retry. simpl.
    by rewrite Hmethod, Hurl, Hdata.
Qed.

(** A call either leaves the location alone and at most replaces the
    stored access token, or it is rejected, has removed the three
    session keys and has set the location to /login.  So a call that
    resolves never logs the user out. *)
Theorem api_redirects_only_with_teardown fuel config (w : World) :
  match api (S (S fuel)) config w with
  | Some (r, w') =>
      (Api.href w' = Api.href w
       /\ (Api.storage w' = Api.storage w
           \/ exists token,
               Api.storage w' = <["access_token" := token]> (Api.storage w)))
      \/ (Api.href w' = "/login"
          /\ (exists error, r = Api.Rejected error)
          /\ forall key, key ∈ sessionKeys -> Api.storage w' !! key = None)
  | None => False
  end.
Proof.
  destruct (api_shapes fuel config w) as (r & w' & -> & Hshape).
  assert (Htear : forall w0 : World, forall key,
            key ∈ sessionKeys -> Api.storage (Api.teardown w0) !! key = None).
  { intros w0 key Hkey. rewrite lookup_teardown. by rewrite decide_True. }
  destruct Hshape as [(? & ? & _ & ->)|[(? & ? & _ & -> & ->)|
    [(? & ? & ? & -> & ->)|(? & ? & ? & ? & _ & ->)]]].
  - left. split; [done|]. by left.
  - right. split; [done|]. split; [by eexists|]. apply Htear.
  - right. split; [done|]. split; [by eexists|]. apply Htear.
  - left. split; [done|]. right. by eexists.
Qed.

Lemma api_no_refresh_token fuel config (w : World) b srv :
  let first := sent config w in
  Api._retry config = false ->
  serve (Api.server w) first = (Some (401%Z, b), srv) ->
  truthy (Api.getItem "refresh_token" w) = false ->
  api (S fuel) config w =
  Some (Api.Rejected
          (Api.AxiosError (Api.set_retry first)
             (Some {| Api.status := 401; Api.body := b |})),
        Api.teardown (after w srv [first])).
Proof.
  intros first Hfresh H401 Htoken. rewrite api_unfold. fold first.
  rewrite (dispatch_eq _ _ _ _ _ _ H401), settle_401.
  set (k := api fuel). unfold Api.onResponseError. simpl.
  unfold first at 1. rewrite retry_sent, Hfresh. simpl.
  change (Api.getItem "refresh_token" (after w srv [first]))
    with (Api.getItem "refresh_token" w).
  by rewrite Htoken.
Qed.

(** A 401 on an unflagged request when storage holds no refresh token
    (or an empty one): the three session keys are removed and every
    other key is kept, the location is set to /login, no refresh call is
    made (the one request sent is the caller's, with its method, url and
    data), and the caller gets the 401 error of the request, whose
    config now carries the flag. *)
Theorem api_401_without_refresh_token fuel config (w : World) b srv :
  let first := sent config w in
  Api._retry config = false ->
  serve (Api.server w) first = (Some (401%Z, b), srv) ->
  truthy (Api.getItem "refresh_token" w) = false ->
  api (S fuel) config w =
    Some (Api.Rejected
            (Api.AxiosError
               {| Api.method := Api.method first; Api.baseURL := Api.baseURL first;
                  Api.url := Api.url first; Api.data := Api.data first;
                  Api.headers := Api.headers first; Api._retry := true |}
               (Some {| Api.status := 401; Api.body := b |})),
          {| Api.storage :=
               delete "user"
                 (delete "refresh_token" (delete "access_token" (Api.storage w)));
             Api.href := "/login"; Api.server := srv;
             Api.trace := Api.trace w ++ [first] |})
  /\ (forall key,
       delete "user"
         (delete "refresh_token" (delete "access_token" (Api.storage w))) !! key
       = if decide (key ∈ sessionKeys) then None else Api.storage w !! key)
  /\ Api.method first = Api.method config
  /\ Api.url first = Api.url config
  /\ Api.data first = Api.data config.
Proof.
  intros first Hfresh H401 Htoken.
  split; [|split; [|apply sent_fields]].
  - rewrite api_unfold. fold first.
    rewrite (dispatch_eq _ _ _ _ _ _ H401), settle_401.
    set (k := api fuel). unfold Api.onResponseError. simpl.
    unfold first at 1. rewrite retry_sent, Hfresh. simpl.
    change (Api.getItem "refresh_token" (after w srv [first]))
      with (Api.getItem "refresh_token" w).
    by rewrite Htoken.
  - intros key.
    change (delete "user"
              (delete "refresh_token" (delete "access_token" (Api.storage w))))
      with (Api.storage (Api.teardown w)).
    apply lookup_teardown.
Qed.

(** A 401 on an unflagged request when the refresh call is answered 2xx
    with a [null] or [undefined] body: reading [access] throws, which
    the interceptor treats like a failed refresh: tear-down, /login, and
    the TypeError for the caller. *)
Theorem api_refresh_without_body fuel config (w : World) b srv1 rt st data srv2 :
  let first := sent config w in
  Api._retry config = false ->
  serve (Api.server w) first = (Some (401%Z, b), srv1) ->
  Api.storage w !! "refresh_token" = Some rt -> rt <> "" ->
  serve srv1 (refreshRequest (VStr rt)) = (Some (st, data), srv2) ->
  (200 <= st < 300)%Z ->
  nullish data = true ->
  api (S fuel) config w =
  Some (Api.Rejected Api.TypeError,
        Api.teardown (after w srv2 [first; refreshRequest (VStr rt)])).
Proof.
  intros first Hfresh H401 Hrt Hne Hrefresh Hst Hnull.
  rewrite api_unfold. fold first.
  rewrite (dispatch_eq _ _ _ _ _ _ H401), settle_401.
  set (k := api fuel). unfold Api.onResponseError. simpl.
  unfold first at 1. rewrite retry_sent, Hfresh. simpl.
  change (Api.getItem "refresh_token" (after w srv1 [first]))
    with (Api.getItem "refresh_token" w).
  destruct (getItem_some Server _ _ _ Hrt Hne) as [-> ->]. simpl.
  rewrite (dispatch_eq _ _ _ (after w srv1 [first]) _ srv2) by done.
  rewrite (settle_2xx _ _ _ Hst), after_after. simpl.
  unfold get. by rewrite Hnull.
Qed.

(** A refresh answer that is an object without an [access] property is
    not noticed: the string "undefined" is stored as the access token
    and the request goes out again, with the method, url and data of the
    config, the flag and the header "Bearer undefined".  The caller gets
    the outcome of that second attempt and the location is left alone. *)
Theorem api_refresh_without_access
    fuel config (w : World) b srv1 rt st data srv2 answer srv3 :
  let first := sent config w in
  let refresh :=
    {| Api.method := "post"; Api.baseURL := None;
       Api.url := to_string getApiBaseUrl +:+ "/api/token/refresh/";
       Api.data := VObj {[ "refresh" := VStr rt ]};
       Api.headers := ∅; Api._retry := false |} in
  let retried :=
    {| Api.method := Api.method config; Api.baseURL := Api.baseURL first;
       Api.url := Api.url config; Api.data := Api.data config;
       Api.headers := <["Authorization" := "Bearer undefined"]> (Api.headers first);
       Api._retry := true |} in
  Api._retry config = false ->
  serve (Api.server w) first = (Some (401%Z, b), srv1) ->
  Api.storage w !! "refresh_token" = Some rt -> rt <> "" ->
  serve srv1 refresh = (Some (st, VObj data), srv2) ->
  (200 <= st < 300)%Z ->
  data !! "access" = None ->
  serve srv2 retried = (answer, srv3) ->
  api (S (S fuel)) config w =
    Some (Api.settle retried answer,
          {| Api.storage := <["access_token" := "undefined"]> (Api.storage w);
             Api.href := Api.href w;
             Api.server := srv3;
             Api.trace := Api.trace w ++ [first; refresh; retried] |})
  /\ Api.method first = Api.method config
  /\ Api.url first = Api.url config
  /\ Api.data first = Api.data config.
Proof.
  intros first refresh retried Hfresh H401 Hrt Hne Hrefresh Hst Haccess Hretry.
  destruct (sent_fields hostname REACT_APP_API_BASE_URL APP_CONFIG Server config w)
    as (Hmethod & Hurl & Hdata).
  fold first in Hmethod, Hurl, Hdata.
  split; [|done].
  assert (Hretried : retriedRequest first VUndefined = retried).
  { unfold retried, retriedRequest, Api.set_header, Api.set_retry. simpl.
    by rewrite Hmethod, Hurl, Hdata. }
  rewrite <- Hretried in Hretry |- *.
  apply (api_refresh_retry hostname REACT_APP_API_BASE_URL APP_CONFIG Server
           serve fuel config w b srv1 rt st (VObj data) VUndefined srv2
           answer srv3); try done.
  unfold get. simpl. by rewrite Haccess.
Qed.

Lemma sent_authorization config (w : World) token :
  Api.storage w !! "access_token" = Some token -> token <> "" ->
  Api.headers (sent config w) !! "Authorization" = Some ("Bearer " +:+ token).
Proof.
  intros Ht Hne. unfold Api.sent, Api.onRequest, Api.getItem. rewrite Ht. simpl.
  rewrite (proj2 (String.eqb_neq token "") Hne). simpl. apply lookup_insert_eq.
Qed.

(** The request interceptor: with a non-empty access token in storage
    it sets the Authorization header to "Bearer <token>", over a header
    the caller may have given; without one it returns the config as it
    got it.  It touches no other header and no other field, and an
    unauthenticated request passes through unchanged. *)
Theorem onRequest_authorization config (w : World) :
  let out := Api.onRequest config w in
  Api.headers out !! "Authorization" =
    match Api.storage w !! "access_token" with
    | Some token =>
        if decide (token = "") then Api.headers config !! "Authorization"
        else Some ("Bearer " +:+ token)
    | None => Api.headers config !! "Authorization"
    end
  /\ (forall name, name <> "Authorization" ->
      Api.headers out !! name = Api.headers config !! name)
  /\ Api.method out = Api.method config
  /\ Api.baseURL out = Api.baseURL config
  /\ Api.url out = Api.url config
  /\ Api.data out = Api.data config
  /\ Api._retry out = Api._retry config
  /\ (truthy (Api.getItem "access_token" w) = false -> out = config).
Proof.
  unfold Api.onRequest, Api.getItem.
  destruct (Api.storage w !! "access_token") as [token|]; simpl; [|done].
  destruct (decide (token = "")) as [->|Hne]; simpl; [done|].
  rewrite (proj2 (String.eqb_neq token "") Hne). simpl.
  split; [apply lookup_insert_eq|]. split; [|done].
  intros name Hname. by rewrite lookup_insert_ne.
Qed.

(** [getApiBaseUrl] never gives an empty or missing URL, whatever the
    host name, the environment variable and the runtime configuration. *)
Theorem getApiBaseUrl_truthy : truthy getApiBaseUrl = true.
Proof.
  unfold Api.getApiBaseUrl.
  destruct (_ || _).
  - by destruct (truthy REACT_APP_API_BASE_URL) eqn:E.
  - destruct (truthy (opt APP_CONFIG "API_BASE_URL")) eqn:E.
    + unfold opt in E. by destruct (nullish APP_CONFIG).
    + by destruct (truthy REACT_APP_API_BASE_URL) eqn:E'.
Qed.

End ApiRuns.

Lemma api_401_without_refresh_token_witness :
  exists error w',
    call 1 listRequests halfSession = Some (Api.Rejected error, w')
    /\ Api.href halfSession = "/dashboard" /\ Api.href w' = "/login"
    /\ Api.storage w' !! "access_token" = None
    /\ Api.storage w' !! "user" = None
    /\ Api.storage w' !! "theme" = Some "dark"
    /\ map Api.method (Api.trace w') = ["get"]
    /\ map Api.url (Api.trace w') = ["/api/requests/"].
Proof.
  destruct (api_401_without_refresh_token "localhost" VUndefined VUndefined
              unit backend 0 listRequests halfSession VNull tt)
    as (Hrun & Hkeys & _); [reflexivity | reflexivity | reflexivity |].
  eexists _, _. split; [exact Hrun|].
  split; [reflexivity|]. split; [reflexivity|].
  split; [exact (Hkeys "access_token")|].
  split; [exact (Hkeys "user")|].
  split; [exact (Hkeys "theme")|].
  split; reflexivity.
Defined.

Lemma api_refresh_without_body_witness :
  exists w',
    run 1 listRequests (session [Some (401%Z, VNull); Some (200%Z, VNull)])
    = Some (Api.Rejected Api.TypeError, w')
    /\ Api.href w' = "/login" /\ Api.storage w' !! "user" = None.
Proof.
  eexists. split.
  - apply (api_refresh_without_body "localhost" VUndefined VUndefined
             Script scripted 0 listRequests
             (session [Some (401%Z, VNull); Some (200%Z, VNull)])
             VNull [Some (200%Z, VNull)] "r1" 200%Z VNull []);
      [reflexivity | reflexivity | reflexivity | discriminate
       | reflexivity | lia | reflexivity].
  - split; reflexivity.
Defined.

Lemma api_refresh_without_access_witness :
  exists config w',
    call 2 listRequests oddSession
    = Some (Api.Rejected
              (Api.AxiosError config
                 (Some {| Api.status := 401; Api.body := VNull |})), w')
    /\ Api.method config = "get" /\ Api.url config = "/api/requests/"
    /\ Api._retry config = true
    /\ Api.headers config !! "Authorization" = Some "Bearer undefined"
    /\ Api.storage w' !! "access_token" = Some "undefined"
    /\ Api.href w' = "/dashboard"
    /\ map Api.url (Api.trace w')
       = ["/api/requests/"; "http://localhost:8000/api/token/refresh/";
          "/api/requests/"]
    /\ map Api.data (Api.trace w')
       = [VUndefined; VObj {[ "refresh" := VStr "r2" ]}; VUndefined].
Proof.
  destruct (api_refresh_without_access "localhost" VUndefined VUndefined
              unit backend 0 listRequests oddSession VNull tt "r2" 200%Z
              {[ "token" := VStr "new" ]} tt (Some (401%Z, VNull)) tt)
    as [Hrun _];
    [reflexivity | reflexivity | reflexivity | discriminate
     | reflexivity | lia | reflexivity | reflexivity |].
  eexists _, _. split; [exact Hrun|].
  split; [reflexivity|]. split; [reflexivity|]. split; [reflexivity|].
  split; [reflexivity|]. split; [reflexivity|]. split; [reflexivity|].
  split; reflexivity.
Defined.

Lemma onRequest_authorization_witness :
  let config :=
    {| Api.method := "get"; Api.baseURL := None; Api.url := "/api/requests/";
       Api.data := VUndefined;
       Api.headers := {[ "Authorization" := "Basic abc"; "X-Trace" := "1" ]};
       Api._retry := false |} in
  Api.headers (Api.onRequest config staleSession) !! "Authorization"
  = Some "Bearer old"
  /\ Api.headers (Api.onRequest config staleSession) !! "X-Trace" = Some "1"
  /\ Api.url (Api.onRequest config staleSession) = "/api/requests/"
  /\ Api.onRequest config noSession = config.
Proof.
  intros config.
  destruct (onRequest_authorization unit config staleSession)
    as (Hbearer & Hothers & _ & _ & Hurl & _).
  destruct (onRequest_authorization unit config noSession)
    as (_ & _ & _ & _ & _ & _ & _ & Hsame).
  split; [exact Hbearer|].
  split; [by rewrite Hothers|].
  split; [exact Hurl|].
  apply Hsame. reflexivity.
Defined.

(** ** More on normalizing the user payload *)

Lemma flag_spec (A : bool) (x : Val) :
  let s := or (or (VBool A) x) (VBool false) in
  (truthy s = true \/ s = VBool false)
  /\ (A = true -> s = VBool true)
  /\ truthy s = A || truthy x.
Proof.
  destruct A; unfold or; simpl; [by auto|].
  destruct (truthy x) eqn:E; rewrite ?E; simpl; repeat split; auto; done.
Qed.

(** What every normalized identity looks like. *)
Lemma normalize_shape (userData normalized : Val) :
  AuthContext.normalizeUserData userData = Some normalized ->
  exists fields role flag,
    normalized = VObj fields
    /\ fields !! "role" = Some role /\ role <> VUndefined
    /\ fields !! "is_superuser" = Some flag
    /\ (truthy flag = true \/ flag = VBool false)
    /\ (role = VStr "admin" -> truthy flag = true -> flag = VBool true)
    /\ truthy flag =
       strict_eq (prop userData "role") (VStr "admin")
       || truthy (prop userData "is_superuser").
Proof.
  unfold AuthContext.normalizeUserData, get.
  destruct (nullish userData) eqn:Hnull; [done|]. simpl.
  destruct (strict_eq (prop userData "role") VUndefined) eqn:Hrole; simpl.
  - assert (Hundef : prop userData "role" = VUndefined)
      by (by destruct (prop userData "role")).
    rewrite Hundef. simpl. rewrite or_false_truthy.
    destruct (truthy (prop userData "is_superuser")) eqn:Hsu.
    + intros [= <-]. eexists _, _, _. split; [reflexivity|].
      repeat split; try done; auto.
    + destruct (truthy (prop userData "profile")); intros [= <-];
        eexists _, _, _; (split; [reflexivity|]);
        repeat split; try done; auto.
      simpl. unfold or.
      destruct (truthy (prop (prop userData "profile") "role")) eqn:E; [|done].
      intros Heq. by rewrite Heq in E.
  - intros [= <-]. apply strict_eq_undefined in Hrole.
    destruct userData as [| | | | | |fields]; try done. simpl in *.
    destruct (fields !! "role") as [role|] eqn:Hr; [|done]. simpl in *.
    destruct (flag_spec (strict_eq role (VStr "admin"))
                (default VUndefined (fields !! "is_superuser")))
      as (Hbool & Hadmin & Htruthy).
    eexists _, role, _. split; [reflexivity|].
    split; [by rewrite lookup_insert_ne|]. split; [done|].
    split; [by rewrite lookup_insert_eq|]. split; [done|]. split; [|done].
    intros -> _. by apply Hadmin.
Qed.

(** [normalizeUserData] throws exactly on [null] and [undefined]; on
    every other payload it returns an object that has a [role] and an
    [is_superuser] property. *)
Theorem normalizeUserData_total (userData : Val) :
  (AuthContext.normalizeUserData userData = None <-> nullish userData = true)
  /\ (forall normalized,
        AuthContext.normalizeUserData userData = Some normalized ->
        exists fields,
          normalized = VObj fields
          /\ is_Some (fields !! "role") /\ is_Some (fields !! "is_superuser")).
Proof.
  split.
  - unfold AuthContext.normalizeUserData, get.
    destruct (nullish userData); simpl; [done|]. split; [|done].
    destruct (negb _); [done|]. destruct (truthy _); [done|].
    by destruct (truthy _).
  - intros normalized Hn.
    destruct (normalize_shape _ _ Hn) as (fields & role & flag & -> & Hr & _ & Hf & _).
    exists fields. rewrite Hr, Hf. eauto.
Qed.

Lemma flag_of_normalized (userData normalized : Val) :
  AuthContext.normalizeUserData userData = Some normalized ->
  truthy (prop normalized "is_superuser") =
  strict_eq (prop userData "role") (VStr "admin")
  || truthy (prop userData "is_superuser").
Proof.
  intros Hn.
  destruct (normalize_shape _ _ Hn) as (fields & role & flag & -> & _ & _ & Hf & _ & _ & <-).
  simpl. by rewrite Hf.
Qed.

(** The normalized [is_superuser] is truthy exactly when the payload's
    top-level role is admin or the payload's own [is_superuser] is
    truthy; the role of a profile does not count. *)
Theorem normalized_superuser_flag (userData normalized : Val) :
  AuthContext.normalizeUserData userData = Some normalized ->
  truthy (prop normalized "is_superuser") =
  strict_eq (prop userData "role") (VStr "admin")
  || truthy (prop userData "is_superuser").
Proof.
  intros Hn.
  destruct (normalize_shape _ _ Hn)
    as (fields & role & flag & -> & _ & _ & Hf & _ & _ & <-).
  simpl. by rewrite Hf.
Qed.

Lemma normalized_superuser_flag_witness :
  exists normalized,
    AuthContext.normalizeUserData
      (VObj {[ "id" := VNum 3;
               "profile" := VObj {[ "role" := VStr "admin" ]} ]}) = Some normalized
    /\ prop normalized "role" = VStr "admin"
    /\ truthy (prop normalized "is_superuser") = false.
Proof.
  eexists. split; [reflexivity|]. split; [reflexivity|].
  rewrite (normalized_superuser_flag
             (VObj {[ "id" := VNum 3;
                      "profile" := VObj {[ "role" := VStr "admin" ]} ]}));
    reflexivity.
Defined.

Lemma normalize_again fields role flag :
  fields !! "role" = Some role -> role <> VUndefined ->
  fields !! "is_superuser" = Some flag ->
  (truthy flag = true \/ flag = VBool false) ->
  AuthContext.normalizeUserData (VObj fields) =
  Some (VObj (<["is_superuser" :=
                 if strict_eq role (VStr "admin") then VBool true else flag]>
                fields)).
Proof.
  intros Hr Hdef Hf Hflag. rewrite (normalize_with_role _ _ Hr Hdef).
  simpl. rewrite Hf. simpl. do 3 f_equal.
  destruct (strict_eq role (VStr "admin")); [done|]. unfold or. simpl.
  destruct Hflag as [Ht | ->]; [by rewrite Ht|done].
Qed.

Lemma renormalize_iff (userData normalized : Val) :
  AuthContext.normalizeUserData userData = Some normalized ->
  (AuthContext.normalizeUserData normalized = Some normalized
   <-> (prop normalized "role" = VStr "admin" ->
        truthy (prop normalized "is_superuser") = true)).
Proof.
  intros Hn.
  destruct (normalize_shape _ _ Hn)
    as (fields & role & flag & -> & Hr & Hdef & Hf & Hflag & Hadmin & _).
  rewrite (normalize_again _ _ _ Hr Hdef Hf Hflag). simpl. rewrite Hr, Hf. simpl.
  destruct (strict_eq role (VStr "admin")) eqn:E.
  - apply strict_eq_str in E. split.
    + intros [= Heq] _.
      assert (Hl : (<["is_superuser" := VBool true]> fields) !! "is_superuser"
                   = fields !! "is_superuser") by (by rewrite Heq).
      rewrite lookup_insert_eq, Hf in Hl. by injection Hl as <-.
    + intros Ht. rewrite (Hadmin E (Ht E)) in Hf. by rewrite insert_id.
  - apply strict_eq_str_false in E. split; [done|]. intros _.
    by rewrite insert_id.
Qed.

(** Normalizing a normalized identity gives it back unchanged, except
    when it has the role admin with a false [is_superuser] (a payload
    whose profile role is admin): then the flag is turned on. *)
Theorem normalize_normalized (userData normalized : Val) :
  AuthContext.normalizeUserData userData = Some normalized ->
  (AuthContext.normalizeUserData normalized = Some normalized
   <-> (prop normalized "role" = VStr "admin" ->
        truthy (prop normalized "is_superuser") = true)).
Proof.
  intros Hn.
  destruct (normalize_shape _ _ Hn)
    as (fields & role & flag & -> & Hr & Hdef & Hf & Hflag & Hadmin & _).
  rewrite (normalize_again _ _ _ Hr Hdef Hf Hflag). simpl. rewrite Hr, Hf. simpl.
  destruct (strict_eq role (VStr "admin")) eqn:E.
  - apply strict_eq_str in E. split.
    + intros [= Heq] _.
      assert (Hl : (<["is_superuser" := VBool true]> fields) !! "is_superuser"
                   = fields !! "is_superuser") by (by rewrite Heq).
      rewrite lookup_insert_eq, Hf in Hl. by injection Hl as <-.
    + intros Ht. rewrite (Hadmin E (Ht E)) in Hf. by rewrite insert_id.
  - apply strict_eq_str_false in E. split; [done|]. intros _.
    by rewrite insert_id.
Qed.

Lemma normalize_normalized_witness :
  let normalized :=
    VObj {[ "id" := VNum 3; "role" := VStr "finance"; "is_superuser" := VBool false ]} in
  AuthContext.normalizeUserData normalized = Some normalized.
Proof.
  apply (normalize_normalized
           (VObj {[ "id" := VNum 3; "role" := VStr "finance" ]})).
  - vm_compute. reflexivity.
  - discriminate.
Defined.

(** Normalizing twice always reaches a fixed point. *)
Theorem normalize_twice_fixed (userData once twice : Val) :
  AuthContext.normalizeUserData userData = Some once ->
  AuthContext.normalizeUserData once = Some twice ->
  AuthContext.normalizeUserData twice = Some twice.
Proof.
  intros H1 H2. apply (renormalize_iff once twice H2).
  intros Hadmin. rewrite (flag_of_normalized _ _ H2).
  destruct (normalize_shape _ _ H1)
    as (fields & role & flag & -> & Hr & Hdef & Hf & Hflag & _).
  rewrite (normalize_again _ _ _ Hr Hdef Hf Hflag) in H2. injection H2 as <-.
  simpl in *. rewrite lookup_insert_ne, Hr in Hadmin by done. simpl in Hadmin.
  rewrite Hr. simpl. subst role. done.
Qed.

Lemma normalize_twice_fixed_witness :
  let twice :=
    VObj {[ "id" := VNum 3; "username" := VUndefined; "email" := VUndefined;
            "role" := VStr "admin"; "role_display" := VNull;
            "is_superuser" := VBool true ]} in
  AuthContext.normalizeUserData twice = Some twice.
Proof.
  apply (normalize_twice_fixed
           (VObj {[ "id" := VNum 3;
                    "profile" := VObj {[ "role" := VStr "admin" ]} ]})
           (VObj {[ "id" := VNum 3; "username" := VUndefined; "email" := VUndefined;
                    "role" := VStr "admin"; "role_display" := VNull;
                    "is_superuser" := VBool false ]})).
  - vm_compute. reflexivity.
  - vm_compute. reflexivity.
Defined.

(** ** Restoring, opening and closing a session *)

Section SessionRuns.

Variable hostname : string.
Variable REACT_APP_API_BASE_URL : Val.
Variable APP_CONFIG : Val.
Variable Server : Type.
Variable serve : Server -> Api.Request -> option (Z * Val) * Server.
Variable stringify : Val -> string.

Local Abbreviation World := (Api.World Server).
Local Abbreviation api :=
  (Api.api hostname REACT_APP_API_BASE_URL APP_CONFIG Server serve).
Local Abbreviation sent :=
  (Api.sent hostname REACT_APP_API_BASE_URL APP_CONFIG Server).
Local Abbreviation initAuth :=
  (AuthContext.initAuth hostname REACT_APP_API_BASE_URL APP_CONFIG Server serve
     stringify).
Local Abbreviation login :=
  (AuthContext.login hostname REACT_APP_API_BASE_URL APP_CONFIG Server serve
     stringify).
Local Abbreviation logout := (@AuthContext.logout Server).
Local Abbreviation clearSession := (AuthContext.clearSession Server).

Lemma both_keys (w : World) storedUser accessToken :
  Api.storage w !! "user" = Some storedUser -> storedUser <> "" ->
  Api.storage w !! "access_token" = Some accessToken -> accessToken <> "" ->
  truthy (Api.getItem "user" w) && truthy (Api.getItem "access_token" w) = true.
Proof.
  intros Hu Hune Ha Hane.
  destruct (getItem_some Server _ _ _ Hu Hune) as [_ ->].
  by destruct (getItem_some Server _ _ _ Ha Hane) as [_ ->].
Qed.

(** Restore with both keys stored and a 2xx answer to the who-am-I
    call: one request goes out, with the stored token as bearer; the
    state is authenticated with the normalized payload; the user key is
    overwritten with it and the tokens stay. *)
Theorem initAuth_restores
    fuel st (w : World) storedUser accessToken status data srv normalized :
  let me := sent currentUserRequest w in
  Api.storage w !! "user" = Some storedUser -> storedUser <> "" ->
  Api.storage w !! "access_token" = Some accessToken -> accessToken <> "" ->
  serve (Api.server w) me = (Some (status, data), srv) ->
  (200 <= status < 300)%Z ->
  AuthContext.normalizeUserData data = Some normalized ->
  initAuth (S fuel) st w =
    Some (restored normalized,
          {| Api.storage := <["user" := stringify normalized]> (Api.storage w);
             Api.href := Api.href w; Api.server := srv;
             Api.trace := Api.trace w ++ [me] |})
  /\ Api.headers me !! "Authorization" = Some ("Bearer " +:+ accessToken).
Proof.
  intros me Hu Hune Ha Hane Hserve Hst Hnorm. split.
  - unfold AuthContext.initAuth, AuthContext.getCurrentUser.
    rewrite (both_keys w _ _ Hu Hune Ha Hane).
    fold currentUserRequest.
    rewrite (api_pass _ _ _ _ _ fuel currentUserRequest w _ srv Hserve)
      by (intros b [= -> _]; lia).
    fold me. rewrite (settle_2xx _ _ _ Hst). simpl. by rewrite Hnorm.
  - by apply sent_authorization.
Qed.

(** Restore with both keys stored when the who-am-I call fails with
    anything but a 401 (no answer, a 500, ...): the three keys are
    removed and the state is signed out; the location is not changed and
    no refresh is tried. *)
Theorem initAuth_failure_clears
    fuel st (w : World) storedUser accessToken answer srv error :
  let me := sent currentUserRequest w in
  Api.storage w !! "user" = Some storedUser -> storedUser <> "" ->
  Api.storage w !! "access_token" = Some accessToken -> accessToken <> "" ->
  serve (Api.server w) me = (answer, srv) ->
  Api.settle me answer = Api.Rejected error ->
  (forall b, answer <> Some (401%Z, b)) ->
  initAuth (S fuel) st w =
  Some (signedOut,
        {| Api.storage :=
             delete "user"
               (delete "refresh_token" (delete "access_token" (Api.storage w)));
           Api.href := Api.href w; Api.server := srv;
           Api.trace := Api.trace w ++ [me] |}).
Proof.
  intros me Hu Hune Ha Hane Hserve Hsettle Hnot.
  unfold AuthContext.initAuth, AuthContext.getCurrentUser.
  rewrite (both_keys w _ _ Hu Hune Ha Hane). fold currentUserRequest.
  rewrite (api_pass _ _ _ _ _ fuel currentUserRequest w _ srv Hserve).
  - fold me. by rewrite Hsettle.
  - intros b ->. by destruct (Hnot b).
Qed.

(** Restore with both keys stored when the who-am-I call is answered
    2xx with a [null] body: normalizing throws, and the session is
    cleared like after a failed call. *)
Theorem initAuth_null_body_clears
    fuel st (w : World) storedUser accessToken status data srv :
  let me := sent currentUserRequest w in
  Api.storage w !! "user" = Some storedUser -> storedUser <> "" ->
  Api.storage w !! "access_token" = Some accessToken -> accessToken <> "" ->
  serve (Api.server w) me = (Some (status, data), srv) ->
  (200 <= status < 300)%Z ->
  nullish data = true ->
  initAuth (S fuel) st w =
  Some (signedOut,
        {| Api.storage :=
             delete "user"
               (delete "refresh_token" (delete "access_token" (Api.storage w)));
           Api.href := Api.href w; Api.server := srv;
           Api.trace := Api.trace w ++ [me] |}).
Proof.
  intros me Hu Hune Ha Hane Hserve Hst Hnull.
  unfold AuthContext.initAuth, AuthContext.getCurrentUser.
  rewrite (both_keys w _ _ Hu Hune Ha Hane). fold currentUserRequest.
  rewrite (api_pass _ _ _ _ _ fuel currentUserRequest w _ srv Hserve)
    by (intros b [= -> _]; lia).
  fold me. rewrite (settle_2xx _ _ _ Hst). simpl.
  unfold AuthContext.normalizeUserData, get. by rewrite Hnull.
Qed.

(** However restore goes, it ends not loading, and authenticated exactly
    when it has a user: then the user is a normalized object and is what
    the user key holds; otherwise the user is [null], and if both keys
    were stored, the three session keys are gone. *)
Theorem initAuth_outcome fuel st (w : World) :
  match initAuth (S (S fuel)) st w with
  | Some (st', w') =>
      AuthContext.loading st' = false
      /\ AuthContext.isAuthenticated st' = truthy (AuthContext.user st')
      /\ (AuthContext.isAuthenticated st' = true ->
          (exists fields, AuthContext.user st' = VObj fields)
          /\ Api.storage w' !! "user" = Some (stringify (AuthContext.user st')))
      /\ (AuthContext.isAuthenticated st' = false ->
          AuthContext.user st' = VNull
          /\ (truthy (Api.getItem "user" w) && truthy (Api.getItem "access_token" w)
              = true ->
              forall key, key ∈ sessionKeys -> Api.storage w' !! key = None))
  | None => False
  end.
Proof.
  unfold AuthContext.initAuth, AuthContext.getCurrentUser.
  destruct (truthy (Api.getItem "user" w) && truthy (Api.getItem "access_token" w)).
  2:{ simpl. repeat split; done. }
  fold currentUserRequest.
  destruct (api_shapes hostname REACT_APP_API_BASE_URL APP_CONFIG Server serve
              fuel currentUserRequest w) as (r & w1 & -> & _).
  simpl.
  assert (Hcleared :
    (let st' := AuthContext.setLoading false
                  (AuthContext.setIsAuthenticated false (AuthContext.setUser VNull st)) in
     let w' := clearSession w1 in
     AuthContext.loading st' = false
     /\ AuthContext.isAuthenticated st' = truthy (AuthContext.user st')
     /\ (AuthContext.isAuthenticated st' = true ->
         (exists fields, AuthContext.user st' = VObj fields)
         /\ Api.storage w' !! "user" = Some (stringify (AuthContext.user st')))
     /\ (AuthContext.isAuthenticated st' = false ->
         AuthContext.user st' = VNull
         /\ (true = true ->
             forall key, key ∈ sessionKeys -> Api.storage w' !! key = None)))).
  { cbv zeta. repeat split; try done. intros _ key Hkey.
    rewrite (lookup_clearSession Server w1 key). by rewrite decide_True. }
  destruct r as [response|error]; [|exact Hcleared].
  destruct (AuthContext.normalizeUserData (Api.body response)) as [normalized|] eqn:Hn;
    [|exact Hcleared].
  destruct (normalize_shape _ _ Hn) as (fields & ? & ? & -> & _).
  simpl. repeat split; try done.
  - by eexists.
  - apply lookup_insert_eq.
Qed.


(** A login answered 401 while no refresh token is stored (the usual
    case of wrong credentials): the response interceptor treats it like
    an expired session.  The promise is rejected with the 401 error and
    the state is as before, but the location is set to /login and the
    session keys are removed. *)
Theorem login_wrong_credentials fuel username password st (w : World) b srv :
  let first := sent (tokenRequest username password) w in
  serve (Api.server w) first = (Some (401%Z, b), srv) ->
  truthy (Api.getItem "refresh_token" w) = false ->
  login (S fuel) username password st w =
  Some (Api.Rejected
          (Api.AxiosError (Api.set_retry first)
             (Some {| Api.status := 401; Api.body := b |})),
        st,
        {| Api.storage :=
             delete "user"
               (delete "refresh_token" (delete "access_token" (Api.storage w)));
           Api.href := "/login"; Api.server := srv;
           Api.trace := Api.trace w ++ [first] |}).
Proof.
  intros first H401 Htoken. unfold AuthContext.login.
  fold (tokenRequest username password).
  by rewrite (api_no_refresh_token hostname REACT_APP_API_BASE_URL APP_CONFIG
                Server serve fuel (tokenRequest username password) w b srv
                eq_refl H401 Htoken).
Qed.

Lemma login_frame fuel username password st (w : World) r st' w' key :
  login (S (S fuel)) username password st w = Some (r, st', w') ->
  key ∉ sessionKeys -> Api.storage w' !! key = Api.storage w !! key.
Proof.
  unfold AuthContext.login. fold (tokenRequest username password).
  destruct (api (S (S fuel)) (tokenRequest username password) w)
    as [[settled w1]|] eqn:Hapi; [|done].
  intros Hlogin Hkey. simpl in Hlogin.
  pose proof (api_frame hostname REACT_APP_API_BASE_URL APP_CONFIG Server serve
                fuel _ w w1 settled key Hapi Hkey) as Hframe.
  unfold sessionKeys in Hkey. rewrite !not_elem_of_cons in Hkey. destruct_and!.
  destruct settled as [response|error]; [|by injection Hlogin as <- <- <-].
  destruct (get (Api.body response) "access");
    injection Hlogin as <- <- <-; [|done].
  simpl. by rewrite !lookup_insert_ne.
Qed.

(** Whatever a login did, a [logout] after it leaves the state signed
    out and the storage as it was before the login, less the three
    session keys. *)
Theorem logout_after_login fuel username password st (w : World) :
  match login (S (S fuel)) username password st w with
  | Some (_, st', w') =>
      let '(st'', w'') := logout st' w' in
      AuthContext.isAuthenticated st'' = false
      /\ AuthContext.user st'' = VNull
      /\ Api.storage w'' =
         delete "user"
           (delete "refresh_token" (delete "access_token" (Api.storage w)))
  | None => False
  end.
Proof.
  destruct (login (S (S fuel)) username password st w) as [[[r st'] w']|] eqn:Hlogin.
  2:{ revert Hlogin. unfold AuthContext.login.
      fold (tokenRequest username password).
      destruct (api_shapes hostname REACT_APP_API_BASE_URL APP_CONFIG Server serve
                  fuel (tokenRequest username password) w) as (r & w1 & -> & _).
      simpl. destruct r; [|done]. by destruct (get _ _). }
  simpl. split; [done|]. split; [done|].
  change (Api.storage (clearSession w') = Api.storage (clearSession w)).
  apply map_eq. intros key.
  rewrite (lookup_clearSession Server w' key), (lookup_clearSession Server w key).
  case_decide as Hkey; [done|].
  by apply (login_frame fuel username password st w r st' w').
Qed.

End SessionRuns.

Lemma initAuth_restores_witness :
  exists w',
    AuthContext.initAuth "localhost" VUndefined VUndefined Script scripted
      Js.to_string 1 AuthContext.initialState
      (session [Some (200%Z, VObj {[ "id" := VNum 1; "is_superuser" := VBool true ]})])
    = Some (restored
              (AuthContext.obj
                 [("id", VNum 1); ("username", VUndefined); ("email", VUndefined);
                  ("role", VStr "admin"); ("role_display", VStr "Administrator");
                  ("is_superuser", VBool true)]), w')
    /\ Api.storage w' !! "user" = Some "[object Object]"
    /\ Api.storage w' !! "refresh_token" = Some "r1".
Proof.
  eexists. split.
  - apply (initAuth_restores "localhost" VUndefined VUndefined Script scripted
             Js.to_string 0 AuthContext.initialState
             (session [Some (200%Z, VObj {[ "id" := VNum 1;
                                            "is_superuser" := VBool true ]})])
             "ann" "old" 200%Z
             (VObj {[ "id" := VNum 1; "is_superuser" := VBool true ]}) []);
      [reflexivity | discriminate | reflexivity | discriminate
       | reflexivity | lia | reflexivity].
  - split; reflexivity.
Defined.

Lemma initAuth_failure_clears_witness :
  exists w',
    AuthContext.initAuth "localhost" VUndefined VUndefined Script scripted
      Js.to_string 1 AuthContext.initialState
      (session [Some (500%Z, VStr "server error")])
    = Some (signedOut, w')
    /\ Api.storage w' !! "refresh_token" = None
    /\ Api.storage w' !! "theme" = Some "dark"
    /\ Api.href w' = "/dashboard".
Proof.
  eexists. split.
  - eapply (initAuth_failure_clears "localhost" VUndefined VUndefined Script
              scripted Js.to_string 0 AuthContext.initialState
              (session [Some (500%Z, VStr "server error")])
              "ann" "old" (Some (500%Z, VStr "server error")) []);
      [reflexivity | discriminate | reflexivity | discriminate
       | reflexivity | reflexivity | discriminate].
  - split; [|split]; reflexivity.
Defined.

Lemma initAuth_null_body_clears_witness :
  exists w',
    AuthContext.initAuth "localhost" VUndefined VUndefined Script scripted
      Js.to_string 1 AuthContext.initialState (session [Some (200%Z, VNull)])
    = Some (signedOut, w')
    /\ Api.storage w' !! "access_token" = None.
Proof.
  eexists. split.
  - apply (initAuth_null_body_clears "localhost" VUndefined VUndefined Script
             scripted Js.to_string 0 AuthContext.initialState
             (session [Some (200%Z, VNull)]) "ann" "old" 200%Z VNull []);
      [reflexivity | discriminate | reflexivity | discriminate
       | reflexivity | lia | reflexivity].
  - reflexivity.
Defined.


Lemma login_wrong_credentials_witness :
  exists error w',
    AuthContext.login "localhost" VUndefined VUndefined Script scripted
      Js.to_string 1 (VStr "ann") (VStr "wrong") signedOut
      (visitor [Some (401%Z, VObj {[ "detail" := VStr "No active account" ]})])
    = Some (Api.Rejected error, signedOut, w')
    /\ Api.href w' = "/login".
Proof.
  eexists _, _. split.
  - apply (login_wrong_credentials "localhost" VUndefined VUndefined Script
             scripted Js.to_string 0 (VStr "ann") (VStr "wrong") signedOut
             (visitor [Some (401%Z, VObj {[ "detail" := VStr "No active account" ]})])
             (VObj {[ "detail" := VStr "No active account" ]}) []);
      reflexivity.
  - reflexivity.
Defined.

(** ** More on navigation *)

Section Navigation.

Lemma truthy_and (v w : Val) : truthy (and v w) = truthy v && truthy w.
Proof. unfold and. by destruct (truthy v) eqn:E. Qed.

Lemma truthy_or (v w : Val) : truthy (or v w) = truthy v || truthy w.
Proof. unfold or. by destruct (truthy v) eqn:E. Qed.

Lemma header_allMenuItems_cases role isSuperuser :
  Header.allMenuItems role isSuperuser ∈
    [ Header.baseMenu ++ Header.staffMenu ++ Header.approverMenu
        ++ Header.financeMenu ++ Header.adminMenu;
      Header.baseMenu ++ Header.adminMenu;
      Header.baseMenu ++ Header.staffMenu;
      Header.baseMenu ++ Header.approverMenu;
      Header.baseMenu ++ Header.financeMenu;
      Header.baseMenu ].
Proof.
  unfold Header.allMenuItems.
  repeat match goal with
         | |- context [if ?b then _ else _] => destruct b
         end; rewrite !elem_of_cons; auto 10.
Qed.

Lemma header_uniqueMenuItems_cases role isSuperuser :
  exists rest,
    Header.uniqueMenuItems (Header.allMenuItems role isSuperuser)
    = Header.baseMenu ++ rest
    /\ forall item, item ∈ Header.baseMenu ++ rest -> Header.path item ∈ everyPath.
Proof.
  pose proof (header_allMenuItems_cases role isSuperuser) as Hcase.
  rewrite !elem_of_cons, elem_of_nil in Hcase.
  destruct Hcase as [->|[->|[->|[->|[->|[->|[]]]]]]];
    (eexists; split; [vm_compute; reflexivity|]);
    intros item Hitem; simpl in Hitem;
    rewrite ?elem_of_cons, ?elem_of_nil in Hitem;
    repeat (destruct Hitem as [->|Hitem]; [compute_done|]); done.
Qed.

(** The header menu is empty exactly when there is no user and loading
    is over.  Otherwise its first entry is the Dashboard, and every
    entry has one of the nine paths a superuser gets. *)
Theorem header_menu_starts_with_dashboard (user : Val) (loading : bool) :
  (Header.menuItems user loading = []
   <-> truthy user = false /\ loading = false)
  /\ (Header.menuItems user loading <> [] ->
      exists rest,
        Header.menuItems user loading = Header.baseMenu ++ rest
        /\ forall item, item ∈ Header.menuItems user loading ->
                        Header.path item ∈ everyPath).
Proof.
  unfold Header.menuItems.
  destruct (header_uniqueMenuItems_cases
              (or (opt user "role") (VStr "staff"))
              (or (opt user "is_superuser") (VBool false)))
    as (rest & Heq & Hpaths).
  destruct (truthy user), loading; simpl; rewrite ?Heq;
    (split; [split; [try done; intros [? ?]; done|try done]|]);
    try (intros _; exists rest; by split).
  all: try (intros [? ?]; done).
  done.
Qed.

(** While the session is still loading and there is no user yet, the
    header already shows the menu of the staff role. *)
Theorem header_menu_while_loading (user : Val) :
  truthy user = false ->
  Header.menuItems user true = Header.baseMenu ++ Header.staffMenu
  /\ Header.menuItems user false = [].
Proof.
  intros Hu. unfold Header.menuItems. rewrite Hu. simpl. split; [|done].
  assert (Hopt : forall key, opt user key = VUndefined).
  { intros key. unfold opt. by destruct user. }
  by rewrite !Hopt.
Qed.

Lemma header_menu_while_loading_witness :
  Header.menuItems VNull true = Header.baseMenu ++ Header.staffMenu
  /\ Header.menuItems VNull false = [].
Proof. apply (header_menu_while_loading VNull). reflexivity. Defined.

(** *** The highlighted entry *)

Lemma prefix_comparable (a b s : string) :
  String.prefix a s = true -> String.prefix b s = true ->
  String.prefix a b = true \/ String.prefix b a = true.
Proof.
  assert (Hempty : forall t, String.prefix "" t = true) by (by intros []).
  revert a b. induction s as [|c s IH]; intros a b.
  - destruct a; [by left|]. done.
  - destruct a as [|ca a]; [by left|]. destruct b as [|cb b]; [by right|].
    simpl. destruct (Ascii.ascii_dec ca c) as [->|]; [|done].
    destruct (Ascii.ascii_dec cb c) as [->|]; [|done].
    destruct (Ascii.ascii_dec c c); [|done]. apply IH.
Qed.

Lemma active_comparable pathname p q :
  Header.isActive pathname p = true -> Header.isActive pathname q = true ->
  p = q \/ String.prefix p q = true \/ String.prefix q p = true.
Proof.
  unfold Header.isActive.
  destruct (String.eqb p "/dashboard") eqn:Ep, (String.eqb q "/dashboard") eqn:Eq.
  - apply String.eqb_eq in Ep, Eq. left. congruence.
  - apply String.eqb_eq in Ep. intros ->%String.eqb_eq Hq. subst. auto.
  - apply String.eqb_eq in Eq. intros Hp ->%String.eqb_eq. subst. auto.
  - intros Hp Hq. right. by apply (prefix_comparable p q pathname).
Qed.

Lemma everyPath_prefix_free p q :
  p ∈ everyPath -> q ∈ everyPath -> p <> q -> String.prefix p q = false.
Proof.
  unfold everyPath. rewrite !elem_of_cons, !elem_of_nil.
  intros Hp Hq Hne.
  repeat (destruct Hp as [->|Hp]); try done;
    repeat (destruct Hq as [->|Hq]); try done; reflexivity.
Qed.

Lemma filter_none {A} (f : A -> bool) (l : list A) :
  (forall x, x ∈ l -> f x = false) -> List.filter f l = [].
Proof.
  induction l as [|x l IH]; intros Hall; [done|]. simpl.
  rewrite (Hall x) by (by constructor). apply IH.
  intros y Hy. apply Hall. by constructor.
Qed.

Lemma one_active pathname (items : list Header.MenuItem) :
  NoDup (map Header.path items) ->
  (forall item, item ∈ items -> Header.path item ∈ everyPath) ->
  length (List.filter (fun item => Header.isActive pathname (Header.path item)) items)
  <= 1.
Proof.
  induction items as [|item items IH]; intros Hnd Hin; [simpl; lia|].
  simpl in Hnd. apply NoDup_cons in Hnd as [Hfresh Hnd]. simpl.
  destruct (Header.isActive pathname (Header.path item)) eqn:Hactive.
  - rewrite filter_none; [simpl; lia|].
    intros other Hother.
    destruct (Header.isActive pathname (Header.path other)) eqn:Hactive'; [|done].
    exfalso.
    assert (Hne : Header.path item <> Header.path other).
    { intros Heq. apply Hfresh. rewrite Heq. by apply list_elem_of_fmap_2. }
    assert (Hi : Header.path item ∈ everyPath) by (apply Hin; by constructor).
    assert (Ho : Header.path other ∈ everyPath) by (apply Hin; by constructor).
    destruct (active_comparable _ _ _ Hactive Hactive') as [?|[Hpre|Hpre]]; [done|..].
    + by rewrite (everyPath_prefix_free _ _ Hi Ho Hne) in Hpre.
    + rewrite (everyPath_prefix_free _ _ Ho Hi) in Hpre; [done|]. congruence.
  - apply IH; [done|]. intros other Hother. apply Hin. by constructor.
Qed.

(** Whatever the page and the identity, at most one entry of the header
    menu is shown as active. *)
Theorem header_one_active_entry (pathname : string) (user : Val) (loading : bool) :
  length (List.filter
            (fun item => Header.isActive pathname (Header.path item))
            (Header.menuItems user loading)) <= 1.
Proof.
  apply one_active; [apply Header_menuItems_NoDup|].
  unfold Header.menuItems. destruct (_ && _); [by intros item ?%elem_of_nil|].
  destruct (header_uniqueMenuItems_cases
              (or (opt user "role") (VStr "staff"))
              (or (opt user "is_superuser") (VBool false)))
    as (rest & -> & Hpaths).
  exact Hpaths.
Qed.

(** *** The sidebar without a superuser *)

Lemma sidebar_getMenuItems_cases user :
  Sidebar.getMenuItems user ∈
    [ Sidebar.baseMenu ++ Sidebar.staffMenu ++ Sidebar.approverMenu
        ++ Sidebar.financeMenu ++ Sidebar.adminMenu ++ Sidebar.commonMenu;
      Sidebar.baseMenu ++ Sidebar.staffMenu ++ Sidebar.commonMenu;
      Sidebar.baseMenu ++ Sidebar.approverMenu ++ Sidebar.commonMenu;
      Sidebar.baseMenu ++ Sidebar.financeMenu ++ Sidebar.commonMenu;
      Sidebar.baseMenu ++ Sidebar.adminMenu ++ Sidebar.commonMenu;
      Sidebar.baseMenu ].
Proof.
  unfold Sidebar.getMenuItems.
  repeat match goal with
         | |- context [if ?b then _ else _] => destruct b
         end; rewrite !elem_of_cons; auto 10.
Qed.

(** For an identity that is not a superuser the sidebar has no path
    twice, and it has the Profile entry exactly when the role is one of
    the five it tests for (a missing role counting as staff). *)
Theorem sidebar_regular_menu (user : Val) :
  truthy (opt user "is_superuser") = false ->
  NoDup (map Sidebar.path (Sidebar.getMenuItems user))
  /\ ("/profile" ∈ map Sidebar.path (Sidebar.getMenuItems user)
      <-> exists s, or (opt user "role") (VStr "staff") = VStr s /\ s ∈ sidebarRoles).
Proof.
  intros Hsu. unfold Sidebar.getMenuItems.
  rewrite or_false_truthy, Hsu.
  set (role := or (opt user "role") (VStr "staff")).
  destruct (strict_eq role (VStr "staff")) eqn:E1.
  { apply strict_eq_str in E1. split; [compute_done|]. split; [|intros _; compute_done].
    intros _. exists "staff". split; [done|compute_done]. }
  destruct (strict_eq role (VStr "approver-level-1")) eqn:E2.
  { apply strict_eq_str in E2. split; [compute_done|]. split; [|intros _; compute_done].
    intros _. exists "approver-level-1". split; [done|compute_done]. }
  destruct (strict_eq role (VStr "approver-level-2")) eqn:E3.
  { apply strict_eq_str in E3. split; [compute_done|]. split; [|intros _; compute_done].
    intros _. exists "approver-level-2". split; [done|compute_done]. }
  destruct (strict_eq role (VStr "finance")) eqn:E4.
  { apply strict_eq_str in E4. split; [compute_done|]. split; [|intros _; compute_done].
    intros _. exists "finance". split; [done|compute_done]. }
  destruct (strict_eq role (VStr "admin")) eqn:E5.
  { apply strict_eq_str in E5. split; [compute_done|]. split; [|intros _; compute_done].
    intros _. exists "admin". split; [done|compute_done]. }
  simpl. split; [compute_done|]. split.
  - intros Hin. exfalso. revert Hin. compute_done.
  - intros (s & Hs & Hin). exfalso.
    apply strict_eq_str_false in E1, E2, E3, E4, E5.
    unfold sidebarRoles in Hin. rewrite !elem_of_cons, elem_of_nil in Hin.
    destruct Hin as [->|[->|[->|[->|[->|[]]]]]]; done.
Qed.

Lemma sidebar_regular_menu_witness :
  NoDup (map Sidebar.path
           (Sidebar.getMenuItems (VObj {[ "role" := VStr "approver_level_1" ]})))
  /\ ("/profile" ∉ map Sidebar.path
        (Sidebar.getMenuItems (VObj {[ "role" := VStr "approver_level_1" ]}))).
Proof.
  destruct (sidebar_regular_menu (VObj {[ "role" := VStr "approver_level_1" ]}))
    as [Hnd Hprofile]; [reflexivity|].
  split; [exact Hnd|]. intros Hin. apply Hprofile in Hin as (s & Hs & Hin).
  vm_compute in Hs. injection Hs as <-. revert Hin. compute_done.
Defined.

End Navigation.

(** ** Routes *)

Lemma guarded_routes p allowedRoles page :
  (p, App.Guarded allowedRoles page) ∈ App.routes -> allowedRoles = None.
Proof.
  unfold App.routes. rewrite !elem_of_cons, elem_of_nil. intros H.
  repeat (destruct H as [H|H];
          [first [discriminate H | injection H as _ Ha _; exact Ha]|]).
  done.
Qed.

(** No route of [App] asks for a role: whatever the identity, a guarded
    route renders its page for an authenticated visitor, redirects an
    anonymous one to /login, and shows the spinner while loading.  The
    redirect to /dashboard for a role that is not allowed is never
    taken. *)
Theorem routes_have_no_role_gate p allowedRoles page :
  (p, App.Guarded allowedRoles page) ∈ App.routes ->
  forall user,
    App.render (App.Guarded allowedRoles page) true false user
      = ProtectedRoute.Render page
    /\ App.render (App.Guarded allowedRoles page) false false user
      = ProtectedRoute.Navigate "/login" true
    /\ forall isAuthenticated,
        App.render (App.Guarded allowedRoles page) isAuthenticated true user
        = ProtectedRoute.Spinner.
Proof. intros ->%guarded_routes user. repeat split. Qed.

Lemma routes_have_no_role_gate_witness :
  App.render (App.Guarded None "UsersManagement") true false
    (VObj {[ "role" := VStr "staff"; "is_superuser" := VBool false ]})
  = ProtectedRoute.Render "UsersManagement".
Proof.
  apply (routes_have_no_role_gate "/admin/users" None "UsersManagement").
  unfold App.routes. rewrite !elem_of_cons. auto 20.
Defined.

Lemma path_has_route p :
  p ∈ everyPath \/ p = "/profile" ->
  exists page, (p, App.Guarded None page) ∈ App.routes.
Proof.
  unfold everyPath. rewrite !elem_of_cons, elem_of_nil. unfold App.routes.
  intros [H| ->].
  - repeat (destruct H as [H|H];
            [subst; eexists; rewrite !elem_of_cons;
             repeat (first [left; reflexivity | right])|]).
    done.
  - eexists. rewrite !elem_of_cons. repeat (first [left; reflexivity | right]).
Qed.

(** Every entry of the header menu and of the sidebar menu leads to a
    guarded route that [App] declares; none falls to the catch-all
    redirect. *)
Theorem menus_lead_to_routes (user : Val) (loading : bool) :
  (forall item, item ∈ Header.menuItems user loading ->
     exists page, (Header.path item, App.Guarded None page) ∈ App.routes)
  /\ (forall item, item ∈ Sidebar.getMenuItems user ->
     exists page, (Sidebar.path item, App.Guarded None page) ∈ App.routes).
Proof.
  split; intros item Hitem; apply path_has_route.
  - left. revert item Hitem. unfold Header.menuItems.
    destruct (_ && _); [by intros item ?%elem_of_nil|].
    destruct (header_uniqueMenuItems_cases
                (or (opt user "role") (VStr "staff"))
                (or (opt user "is_superuser") (VBool false)))
      as (rest & -> & Hpaths).
    exact Hpaths.
  - pose proof (sidebar_getMenuItems_cases user) as Hcase.
    rewrite !elem_of_cons, elem_of_nil in Hcase.
    destruct Hcase as [Heq|[Heq|[Heq|[Heq|[Heq|[Heq|[]]]]]]];
      rewrite Heq in Hitem;
      unfold Sidebar.baseMenu, Sidebar.staffMenu, Sidebar.approverMenu,
        Sidebar.financeMenu, Sidebar.adminMenu, Sidebar.commonMenu in Hitem;
      simpl in Hitem; rewrite ?elem_of_cons, ?elem_of_nil in Hitem;
      repeat (destruct Hitem as [->|Hitem];
              [first [left; compute_done | right; reflexivity]|]); done.
Qed.

(** ** What the user may do with a request *)

(** Approving and submitting a receipt exclude each other, for every
    request and every identity: approving needs the status pending,
    submitting a receipt the status approved. *)
Theorem approve_excludes_receipt (request user : Val) :
  (truthy (RequestDetail.canApprove request user) = true ->
   opt request "status" = VStr "pending")
  /\ (truthy (RequestDetail.canSubmitReceipt request user) = true ->
      opt request "status" = VStr "approved")
  /\ (truthy (RequestDetail.canApprove request user) = true ->
      truthy (RequestDetail.canSubmitReceipt request user) = false).
Proof.
  assert (Hpending : truthy (RequestDetail.canApprove request user) = true ->
                     opt request "status" = VStr "pending").
  { unfold RequestDetail.canApprove. rewrite truthy_and.
    intros [H _]%andb_true_iff. by apply strict_eq_str. }
  assert (Happroved : truthy (RequestDetail.canSubmitReceipt request user) = true ->
                      opt request "status" = VStr "approved").
  { unfold RequestDetail.canSubmitReceipt. rewrite !truthy_and.
    intros [[H _]%andb_true_iff _]%andb_true_iff. by apply strict_eq_str. }
  split; [done|]. split; [done|]. intros Hp%Hpending.
  destruct (truthy (RequestDetail.canSubmitReceipt request user)) eqn:E; [|done].
  rewrite (Happroved eq_refl) in Hp. discriminate Hp.
Qed.

(** A superuser may edit every request that can be edited, approve every
    pending request and submit a receipt for every approved request,
    whoever created it and whatever the superuser's role. *)
Theorem superuser_may_act (request user : Val) :
  truthy (opt user "is_superuser") = true ->
  truthy (RequestDetail.canEdit request user)
    = truthy (opt request "can_be_edited")
  /\ truthy (RequestDetail.canApprove request user)
    = strict_eq (opt request "status") (VStr "pending")
  /\ truthy (RequestDetail.canSubmitReceipt request user)
    = strict_eq (opt request "status") (VStr "approved").
Proof.
  intros Hsu.
  unfold RequestDetail.canEdit, RequestDetail.canApprove,
    RequestDetail.canSubmitReceipt, RequestDetail.ownerOrSuperuser.
  rewrite !truthy_and, !truthy_or, Hsu. simpl.
  by rewrite !orb_true_r, !andb_true_r.
Qed.

Lemma superuser_may_act_witness :
  truthy (RequestDetail.canApprove
            (VObj {[ "status" := VStr "pending"; "created_by" := VNum 4 ]})
            (superuser "finance")) = true.
Proof.
  destruct (superuser_may_act
              (VObj {[ "status" := VStr "pending"; "created_by" := VNum 4 ]})
              (superuser "finance")) as (_ & -> & _); reflexivity.
Defined.

(** For an identity whose role is missing, or one of the seven strings
    the header tests for, or who is a superuser, the back link of the
    request page is one of the entries of the header menu. *)
Theorem backPath_is_in_menu (user : Val) (loading : bool) :
  truthy user = true ->
  truthy (opt user "is_superuser") = true
  \/ truthy (opt user "role") = false
  \/ (exists s, opt user "role" = VStr s /\ s ∈ headerRoles) ->
  RequestDetail.getBackPath user ∈ map Header.path (Header.menuItems user loading).
Proof.
  intros Hu Hcase.
  unfold RequestDetail.getBackPath, Header.menuItems, Header.allMenuItems.
  rewrite Hu, or_false_truthy, truthy_or. simpl.
  destruct (truthy (opt user "is_superuser")) eqn:Hsu.
  - clear Hcase. set (role := or (opt user "role") (VStr "staff")).
    destruct (strict_eq role (VStr "admin")) eqn:Ea.
    + apply strict_eq_str in Ea. rewrite Ea. compute_done.
    + simpl.
      repeat match goal with
             | |- context [if ?b then _ else _] => destruct b
             end; compute_done.
  - destruct Hcase as [?|[Hrole|(s & Hrole & Hs)]]; [done|..].
    + rewrite (or_falsy _ _ Hrole). compute_done.
    + rewrite Hrole. unfold headerRoles in Hs.
      rewrite !elem_of_cons, elem_of_nil in Hs.
      destruct Hs as [->|[->|[->|[->|[->|[->|[->|[]]]]]]]]; compute_done.
Qed.

Lemma backPath_is_in_menu_witness :
  RequestDetail.getBackPath (VObj {[ "role" := VStr "finance" ]})
  ∈ map Header.path (Header.menuItems (VObj {[ "role" := VStr "finance" ]}) false).
Proof.
  apply (backPath_is_in_menu (VObj {[ "role" := VStr "finance" ]}) false);
    [reflexivity|].
  right. right. exists "finance". split; [reflexivity|compute_done].
Defined.

(** ** Lists from the server *)

(** Reading a list out of a body throws exactly on [null] and
    [undefined]; it gives the body when the body is an array, the
    [results] of a paginated body, and the empty array when [results] is
    missing or empty.  So the result is an array whenever [results] is
    one or is falsy. *)
Theorem listOf_cases (data : Val) :
  (Requests.listOf data = None <-> nullish data = true)
  /\ (isArray data = true -> Requests.listOf data = Some data)
  /\ (forall list, Requests.listOf data = Some list ->
       isArray (prop data "results") = true
       \/ truthy (prop data "results") = false ->
       isArray list = true)
  /\ (isArray data = false -> nullish data = false ->
      truthy (prop data "results") = false ->
      Requests.listOf data = Some (VArr [])).
Proof.
  unfold Requests.listOf, get.
  destruct (isArray data) eqn:Harr.
  - repeat split; try done.
    + by destruct data.
    + by intros list [= <-] _.
  - destruct (nullish data) eqn:Hnull; simpl; repeat split; try done.
    + intros list [= <-] [Hres|Hres].
      * rewrite or_truthy; [done|]. by destruct (prop data "results").
      * by rewrite or_falsy.
    + intros _ _ Hres. by rewrite or_falsy.
Qed.

Lemma listOf_cases_witness :
  Requests.listOf (VObj {[ "count" := VNum 0 ]}) = Some (VArr [])
  /\ Requests.listOf VNull = None.
Proof.
  split.
  - apply (listOf_cases (VObj {[ "count" := VNum 0 ]})); reflexivity.
  - apply (listOf_cases VNull). reflexivity.
Defined.

Section RequestTypes.

Variable hostname : string.
Variable REACT_APP_API_BASE_URL : Val.
Variable APP_CONFIG : Val.
Variable Server : Type.
Variable serve : Server -> Api.Request -> option (Z * Val) * Server.

(** [getRequestTypes] handles both shapes of a 2xx answer: a plain array
    and a paginated object give the same list; one request goes out and
    nothing is stored or removed. *)
Theorem getRequestTypes_both_shapes fuel (w : Api.World Server) status data srv items :
  let first :=
    Api.sent hostname REACT_APP_API_BASE_URL APP_CONFIG Server requestTypesRequest w in
  serve (Api.server w) first = (Some (status, data), srv) ->
  (200 <= status < 300)%Z ->
  data = VArr items
  \/ (exists fields, data = VObj fields /\ fields !! "results" = Some (VArr items)) ->
  Requests.getRequestTypes hostname REACT_APP_API_BASE_URL APP_CONFIG Server serve
    (S fuel) w
  = Some (Api.Resolved (VArr items), after w srv [first]).
Proof.
  intros first Hserve Hst Hshape. unfold Requests.getRequestTypes.
  fold requestTypesRequest.
  rewrite (api_pass _ _ _ _ _ fuel requestTypesRequest w _ srv Hserve)
    by (intros b [= -> _]; lia).
  fold first. rewrite (settle_2xx _ _ _ Hst). simpl.
  destruct Hshape as [->|(fields & -> & Hres)]; [done|].
  unfold Requests.listOf, get. simpl. by rewrite Hres.
Qed.

End RequestTypes.

Lemma getRequestTypes_both_shapes_witness :
  exists w1 w2,
    Requests.getRequestTypes "localhost" VUndefined VUndefined Script scripted 1
      (session [Some (200%Z, VArr [VStr "travel"])])
    = Some (Api.Resolved (VArr [VStr "travel"]), w1)
    /\ Requests.getRequestTypes "localhost" VUndefined VUndefined Script scripted 1
         (session [Some (200%Z, VObj {[ "count" := VNum 1;
                                        "results" := VArr [VStr "travel"] ]})])
       = Some (Api.Resolved (VArr [VStr "travel"]), w2).
Proof.
  eexists _, _. split.
  - apply (getRequestTypes_both_shapes "localhost" VUndefined VUndefined Script
             scripted 0 (session [Some (200%Z, VArr [VStr "travel"])])
             200%Z (VArr [VStr "travel"]) [] [VStr "travel"]);
      [reflexivity | lia | by left].
  - apply (getRequestTypes_both_shapes "localhost" VUndefined VUndefined Script
             scripted 0
             (session [Some (200%Z, VObj {[ "count" := VNum 1;
                                            "results" := VArr [VStr "travel"] ]})])
             200%Z
             (VObj {[ "count" := VNum 1; "results" := VArr [VStr "travel"] ]})
             [] [VStr "travel"]); [reflexivity | lia |].
    right. eexists. split; reflexivity.
Defined.

(** ** The properties above on examples *)

Lemma api_keeps_other_keys_witness :
  match run 2 listRequests
          (session [Some (401%Z, VNull); Some (401%Z, VStr "expired")]) with
  | Some (_, w') =>
      Api.storage w' !! "theme" = Some "dark" /\ Api.storage w' !! "user" = None
  | None => False
  end.
Proof.
  pose proof (api_keeps_other_keys "localhost" VUndefined VUndefined Script
                scripted 0 listRequests
                (session [Some (401%Z, VNull); Some (401%Z, VStr "expired")]))
    as Hframe.
  unfold run.
  destruct (Api.api _ _ _ _ _ _ _ _) as [[r w']|] eqn:Hrun; [|done].
  split.
  - rewrite (Hframe "theme"); [reflexivity|compute_done].
  - vm_compute in Hrun. injection Hrun as _ <-. reflexivity.
Defined.

Lemma api_redirects_only_with_teardown_witness :
  match run 2 listRequests
          (session [Some (401%Z, VNull);
                    Some (200%Z, VObj {[ "access" := VStr "new" ]});
                    Some (200%Z, VStr "rows")]) with
  | Some (_, w') => Api.href w' = "/dashboard"
  | None => False
  end.
Proof.
  pose proof (api_redirects_only_with_teardown "localhost" VUndefined VUndefined
                Script scripted 0 listRequests
                (session [Some (401%Z, VNull);
                          Some (200%Z, VObj {[ "access" := VStr "new" ]});
                          Some (200%Z, VStr "rows")]))
    as Hredirect.
  unfold run.
  destruct (Api.api _ _ _ _ _ _ _ _) as [[r w']|] eqn:Hrun; [|done].
  destruct Hredirect as [[Hhref _]|(_ & (error & ->) & _)]; [exact Hhref|].
  vm_compute in Hrun. discriminate Hrun.
Defined.

Lemma normalizeUserData_total_witness :
  AuthContext.normalizeUserData VUndefined = None
  /\ exists fields,
       AuthContext.normalizeUserData (VStr "ann") = Some (VObj fields)
       /\ fields !! "role" = Some VNull.
Proof.
  split.
  - apply (normalizeUserData_total VUndefined). reflexivity.
  - destruct (normalizeUserData_total (VStr "ann")) as [_ Hobj].
    destruct (Hobj _ eq_refl) as (fields & Heq & _).
    exists fields. split; [by rewrite <- Heq|].
    injection Heq as <-. reflexivity.
Defined.

Lemma initAuth_outcome_witness :
  match AuthContext.initAuth "localhost" VUndefined VUndefined Script scripted
          Js.to_string 2 AuthContext.initialState
          (session [Some (401%Z, VNull); Some (401%Z, VStr "expired")]) with
  | Some (st', w') =>
      AuthContext.user st' = VNull /\ Api.storage w' !! "refresh_token" = None
  | None => False
  end.
Proof.
  pose proof (initAuth_outcome "localhost" VUndefined VUndefined Script scripted
                Js.to_string 0 AuthContext.initialState
                (session [Some (401%Z, VNull); Some (401%Z, VStr "expired")]))
    as Hout.
  destruct (AuthContext.initAuth _ _ _ _ _ _ _ _ _) as [[st' w']|] eqn:Hrun;
    [|done].
  destruct Hout as (_ & _ & _ & Hanon).
  assert (Hauth : AuthContext.isAuthenticated st' = false).
  { vm_compute in Hrun. by injection Hrun as <- _. }
  destruct (Hanon Hauth) as [Huser Hkeys]. split; [exact Huser|].
  apply Hkeys; [reflexivity|compute_done].
Defined.

Lemma header_menu_starts_with_dashboard_witness :
  Header.menuItems VNull false = []
  /\ exists rest,
       Header.menuItems (VObj {[ "role" := VStr "finance" ]}) false
       = Header.baseMenu ++ rest.
Proof.
  split.
  - apply (header_menu_starts_with_dashboard VNull false). by split.
  - destruct (header_menu_starts_with_dashboard
                (VObj {[ "role" := VStr "finance" ]}) false) as [_ Hhead].
    destruct Hhead as (rest & Heq & _); [discriminate|]. by exists rest.
Defined.

Lemma menus_lead_to_routes_witness :
  exists page, ("/requests/approved", App.Guarded None page) ∈ App.routes.
Proof.
  destruct (menus_lead_to_routes (VObj {[ "role" := VStr "finance" ]}) false)
    as [Hheader _].
  apply (Hheader {| Header.path := "/requests/approved";
                    Header.label := "Approved Requests";
                    Header.roles := ["finance"] |}).
  apply list_elem_of_In. vm_compute. auto.
Defined.

Lemma approve_excludes_receipt_witness :
  truthy (RequestDetail.canSubmitReceipt
            (VObj {[ "status" := VStr "pending"; "created_by" := VNum 4 ]})
            (VObj {[ "id" := VNum 9; "role" := VStr "approver_level_1" ]}))
  = false.
Proof.
  apply (approve_excludes_receipt
           (VObj {[ "status" := VStr "pending"; "created_by" := VNum 4 ]})
           (VObj {[ "id" := VNum 9; "role" := VStr "approver_level_1" ]})).
  reflexivity.
Defined.
